(** * homework.py: the polling loop of the homework-status bot

    A shallow embedding of [homework.py] and [exceptions.py].

    - Values decoded from the API answer are [json] terms (the Python
      objects [response.json()] builds: None, bool, int, str, list, dict).
      JSON numbers are the integers; fractional literals are left out.
    - Raising is a [result]; the loop body runs in a small monad [M] that
      threads the loop's variables, records what was sent and slept, and
      carries the three ways a block can end (falls through, [continue],
      an exception).
    - An exception caught by the loop is an object with an identity; two
      exception objects are equal only when they are the same object.
    - The HTTP exchange and the Telegram delivery of a cycle are inputs
      ([cycle_env]): the code decides nothing about them.
    - Log lines are not modelled.  [main] is the part of the source's
      [main] after [check_tokens]; [main_with_tokens] is the whole of it. *)

From Stdlib Require Import ZArith List String Ascii Bool Lia Arith.
From Stdlib Require Import DecimalString Permutation.
Import ListNotations.

Local Open Scope string_scope.
Local Open Scope Z_scope.

(** ** Decoded JSON values *)

#[local] Set Warnings "-register-all".

Inductive json : Type :=
| JNull
| JBool (b : bool)
| JInt (n : Z)
| JStr (s : string)
| JList (items : list json)
| JObj (fields : list (string * json)).

(** [d.get(key)] on the items of a dict.  A dict holds one value per key;
    in the item list the first binding of a key is the dict's value. *)
Fixpoint lookup {A : Type} (key : string) (fields : list (string * A)) : option A :=
  match fields with
  | [] => None
  | (k, v) :: rest => if String.eqb key k then Some v else lookup key rest
  end.

Fixpoint mem_key (key : string) (keys : list string) : bool :=
  match keys with
  | [] => false
  | k :: rest => String.eqb key k || mem_key key rest
  end.

(** [response.get(key)]: an absent key reads as None. *)
Definition dict_get (fields : list (string * json)) (key : string) : json :=
  match lookup key fields with
  | Some v => v
  | None => JNull
  end.

Definition is_none (v : json) : bool :=
  match v with JNull => true | _ => false end.

(** Python's [==] on decoded values.  bool is a subclass of int
    ([True == 1]); lists compare item by item; dicts compare as maps,
    whatever the order of their items. *)
Section Compare.

Variable eq : json -> json -> bool.

(** list [==] list *)
Fixpoint items_eq (xs ys : list json) {struct xs} : bool :=
  match xs, ys with
  | [], [] => true
  | x :: xs', y :: ys' => eq x y && items_eq xs' ys'
  | _, _ => false
  end.

(** Every key of [f] is bound in [g] to an equal value; a binding of
    [f] behind an earlier one of the same key ([seen]) is not the
    dict's. *)
Fixpoint entries_eq (g : list (string * json)) (seen : list string)
    (f : list (string * json)) {struct f} : bool :=
  match f with
  | [] => true
  | (k, v) :: f' =>
      (if mem_key k seen then true
       else match lookup k g with
            | Some w => eq v w
            | None => false
            end)
      && entries_eq g (k :: seen) f'
  end.

End Compare.

Fixpoint py_eq (a b : json) {struct a} : bool :=
  match a, b with
  | JNull, JNull => true
  | JBool x, JBool y => Bool.eqb x y
  | JBool x, JInt n => Z.eqb (if x then 1 else 0) n
  | JInt n, JBool y => Z.eqb n (if y then 1 else 0)
  | JInt n, JInt m => Z.eqb n m
  | JStr s, JStr t => String.eqb s t
  | JList xs, JList ys => items_eq py_eq xs ys
  | JObj f, JObj g =>
      entries_eq py_eq g [] f
      && forallb (fun k => mem_key k (map fst f)) (map fst g)
  | _, _ => false
  end.

(** ** Text *)

Definition dquote : string := String (ascii_of_nat 34) EmptyString.
Definition squote : string := String (ascii_of_nat 39) EmptyString.

(** [str(n)] of an int. *)
Definition str_int (n : Z) : string := NilZero.string_of_int (Z.to_int n).

(** [part in text] *)
Definition includes (text part : string) : Prop :=
  exists before after, text = before ++ part ++ after.

(** ** Exceptions *)

Inductive exc_class : Type :=
| TokenNotFound
| APIError
| APIKeyError
| TelegramError
| HomeworkStatusError
| HomeworkNameNotFoundError
| TypeError
| KeyError
| AttributeError
| JSONDecodeError.

(** Every class above derives from [Exception]: the six of
    [exceptions.py] by their class statement, the others as built-ins
    (and [requests]' JSONDecodeError through ValueError). *)
Definition derives_from_Exception (c : exc_class) : bool :=
  match c with
  | TokenNotFound | APIError | APIKeyError | TelegramError
  | HomeworkStatusError | HomeworkNameNotFoundError => true
  | TypeError | KeyError | AttributeError | JSONDecodeError => true
  end.

(** An exception value: its class and [str(error)]. *)
Record exc : Type := mkExc { cls : exc_class; text : string }.

Inductive result (A : Type) : Type :=
| Ok (a : A)
| Raise (e : exc).
Arguments Ok {A} a.
Arguments Raise {A} e.

(** Errors the interpreter raises by itself; their wording belongs to
    the interpreter. *)
Inductive fault : Type :=
| NotSubscriptable (v : json)
| Unhashable (v : json)
| NoAttribute (v : json) (attr : string).

(** What the code takes from the Python runtime without defining it:
    [repr] of a list or dict, and the text of the built-in errors. *)
Record interpreter : Type := mkInterpreter {
  repr_container : json -> string;
  fault_text : fault -> string
}.

(** ** Module constants *)

Definition RETRY_PERIOD : Z := 600.

Definition HTTP_OK : Z := 200.

Definition HOMEWORK_VERDICTS : list (string * string) :=
  [ ("approved", "Работа проверена: ревьюеру всё понравилось. Ура!");
    ("reviewing", "Работа взята на проверку ревьюером.");
    ("rejected", "Работа проверена: у ревьюера есть замечания.") ].

(** ** What one cycle receives from outside *)

(** [requests.get] either raises a RequestException ([str(error)] is
    [cause]) or gives a response with a status code; [body] is what
    [response.json()] does on it. *)
Inductive http_outcome : Type :=
| RequestFailed (cause : string)
| Responded (status_code : Z) (body : result json).

(** [bot.send_message] either goes through or raises a TelegramError. *)
Inductive delivery : Type :=
| Delivered
| DeliveryFailed (cause : string).

Record cycle_env : Type := mkEnv { http : http_outcome; telegram : delivery }.

Section Functions.

Variable py : interpreter.

(** [str(v)], as an f-string field formats a decoded value. *)
Definition py_str (v : json) : string :=
  match v with
  | JNull => "None"
  | JBool true => "True"
  | JBool false => "False"
  | JInt n => str_int n
  | JStr s => s
  | JList _ | JObj _ => repr_container py v
  end.

(** [v[key]] with a string key. *)
Definition subscript (v : json) (key : string) : result json :=
  match v with
  | JObj fields =>
      match lookup key fields with
      | Some x => Ok x
      | None => Raise (mkExc KeyError (squote ++ key ++ squote))
      end
  | _ => Raise (mkExc TypeError (fault_text py (NotSubscriptable v)))
  end.

(** [status in HOMEWORK_VERDICTS]: the key is hashed first, and a list or
    a dict has no hash. *)
Definition verdict_of (status : json) : result (option string) :=
  match status with
  | JStr s => Ok (lookup s HOMEWORK_VERDICTS)
  | JNull | JBool _ | JInt _ => Ok None
  | JList _ | JObj _ => Raise (mkExc TypeError (fault_text py (Unhashable status)))
  end.

(** *** get_api_answer *)

Definition get_api_answer (net : http_outcome) (timestamp : json) : result json :=
  match net with
  | RequestFailed error =>
      Raise (mkExc APIError
               ("API didn't return correct answer. "
                ++ "Error " ++ error ++ ". From date: " ++ py_str timestamp))
  | Responded status_code body =>
      if negb (Z.eqb status_code HTTP_OK)
      then Raise (mkExc APIError ("API returned status " ++ str_int status_code))
      else body
  end.

(** *** check_response *)

Fixpoint check_keys (fields : list (string * json)) (keys : list string) : result unit :=
  match keys with
  | [] => Ok tt
  | key :: rest =>
      if is_none (dict_get fields key)
      then Raise (mkExc APIKeyError
                    ("API response doesn't contain key '" ++ key ++ "'"))
      else check_keys fields rest
  end.

Definition check_response (response : json) : result unit :=
  match response with
  | JObj fields =>
      match check_keys fields ["homeworks"; "current_date"] with
      | Raise e => Raise e
      | Ok _ =>
          match dict_get fields "homeworks" with
          | JList _ => Ok tt
          | _ => Raise (mkExc TypeError
                          "Key `homeworks` in API response is not list type")
          end
      end
  | _ => Raise (mkExc TypeError "Unexpected data structure in API response")
  end.

(** *** parse_status *)

Definition parse_status (homework : json) : result string :=
  match homework with
  | JObj fields =>
      let homework_name := dict_get fields "homework_name" in
      if is_none homework_name
      then Raise (mkExc HomeworkNameNotFoundError
                    ("Key " ++ dquote ++ "homework_name" ++ dquote
                     ++ " not found in this homework"))
      else
        let status := dict_get fields "status" in
        match verdict_of status with
        | Raise e => Raise e
        | Ok None =>
            Raise (mkExc HomeworkStatusError
                     ("Unexpected status of homework: "
                      ++ dquote ++ py_str status ++ dquote))
        | Ok (Some verdict) =>
            Ok ("Изменился статус проверки работы "
                ++ dquote ++ py_str homework_name ++ dquote ++ ". " ++ verdict)
        end
  | _ => Raise (mkExc AttributeError (fault_text py (NoAttribute homework "get")))
  end.

End Functions.

(** ** Reports *)

(** A value held in a report: a decoded value (None, a name, a message)
    or a caught exception object.  [obj] is the object's identity: the
    Exception classes define no [__eq__], so [==] on them is [is]. *)
Inductive pyval : Type :=
| PJson (v : json)
| PExc (obj : nat) (e : exc).

Definition pyval_eq (a b : pyval) : bool :=
  match a, b with
  | PJson x, PJson y => py_eq x y
  | PExc i _, PExc j _ => Nat.eqb i j
  | _, _ => false
  end.

(** The dict [{'homework': ..., 'output': ...}]. *)
Record report : Type := mkReport { homework : pyval; output : pyval }.

(** [current_report == prev_report] *)
Definition report_eq (a b : report) : bool :=
  pyval_eq (homework a) (homework b) && pyval_eq (output a) (output b).

(** ** The loop's variables and what it does to the outside *)

(** [next_obj] is the identity the next exception object gets. *)
Record loop_state : Type := mkState {
  timestamp : json;
  current_report : report;
  prev_report : report;
  next_obj : nat
}.

Inductive event : Type :=
| Sent (message : string) (d : delivery)
| Slept (seconds : Z).

(** How a block of statements ends. *)
Inductive flow (A : Type) : Type :=
| Normal (a : A)
| Continue
| Raised (e : exc).
Arguments Normal {A} a.
Arguments Continue {A}.
Arguments Raised {A} e.

Definition M (A : Type) : Type := loop_state -> flow A * loop_state * list event.

Definition ret {A : Type} (a : A) : M A := fun s => (Normal a, s, []).

Definition bind {A B : Type} (m : M A) (k : A -> M B) : M B :=
  fun s =>
    match m s with
    | (Normal a, s1, ev1) =>
        match k a s1 with
        | (r, s2, ev2) => (r, s2, (ev1 ++ ev2)%list)
        end
    | (Continue, s1, ev1) => (Continue, s1, ev1)
    | (Raised e, s1, ev1) => (Raised e, s1, ev1)
    end.

Declare Scope loop_scope.
Delimit Scope loop_scope with loop.
Notation "x <- m ;; k" := (bind m (fun x => k))
  (at level 61, m at next level, right associativity) : loop_scope.
Notation "m ;;; k" := (bind m (fun _ => k))
  (at level 61, right associativity) : loop_scope.

Definition lift {A : Type} (r : result A) : M A :=
  fun s => match r with
           | Ok a => (Normal a, s, [])
           | Raise e => (Raised e, s, [])
           end.

Definition continue_ {A : Type} : M A := fun s => (Continue, s, []).

Definition read {A : Type} (var : loop_state -> A) : M A :=
  fun s => (Normal (var s), s, []).

Definition write (f : loop_state -> loop_state) : M unit :=
  fun s => (Normal tt, f s, []).

Definition emit (e : event) : M unit := fun s => (Normal tt, s, [e]).

Definition set_timestamp (v : json) (s : loop_state) : loop_state :=
  mkState v (current_report s) (prev_report s) (next_obj s).

(** [current_report['homework'] = v] *)
Definition set_current_homework (v : pyval) (s : loop_state) : loop_state :=
  mkState (timestamp s) (mkReport v (output (current_report s)))
          (prev_report s) (next_obj s).

(** [current_report['output'] = v] *)
Definition set_current_output (v : pyval) (s : loop_state) : loop_state :=
  mkState (timestamp s) (mkReport (homework (current_report s)) v)
          (prev_report s) (next_obj s).

(** [prev_report = current_report.copy()] *)
Definition copy_current_to_prev (s : loop_state) : loop_state :=
  mkState (timestamp s) (current_report s) (current_report s) (next_obj s).

(** The exception being handled becomes an object of its own. *)
Definition new_exception (e : exc) : M pyval :=
  fun s => (Normal (PExc (next_obj s) e),
            mkState (timestamp s) (current_report s) (prev_report s) (S (next_obj s)),
            []).

(** *** send_message: a TelegramError is logged and goes no further. *)
Definition send_message (bot : delivery) (message : string) : M unit :=
  emit (Sent message bot).

Section Loop.

Variable py : interpreter.

Local Open Scope loop_scope.

(** *** main: the body of [try] (lines 133-150) *)
Definition main_try (w : cycle_env) : M unit :=
  timestamp <- read timestamp ;;
  response <- lift (get_api_answer py (http w) timestamp) ;;
  _ <- lift (check_response response) ;;
  homeworks <- lift (subscript py response "homeworks") ;;
  match homeworks with
  | JList [] => continue_
  | JList (homework :: _) =>
      name <- lift (subscript py homework "homework_name") ;;
      write (set_current_homework (PJson name)) ;;;
      message <- lift (parse_status py homework) ;;
      write (set_current_output (PJson (JStr message))) ;;;
      current_report <- read current_report ;;
      prev_report <- read prev_report ;;
      (if negb (report_eq current_report prev_report)
       then send_message (telegram w) message ;;; write copy_current_to_prev
       else ret tt) ;;;
      current_date <- lift (subscript py response "current_date") ;;
      write (set_timestamp current_date)
  | _ =>
      (* not reached: check_response lets only a list through *)
      lift (Raise (mkExc TypeError (fault_text py (NotSubscriptable homeworks))))
  end.

(** *** main: the body of [except Exception as error] (lines 153-159) *)
Definition main_except (w : cycle_env) (error : exc) : M unit :=
  error_obj <- new_exception error ;;
  write (set_current_output error_obj) ;;;
  current_report <- read current_report ;;
  prev_report <- read prev_report ;;
  if negb (report_eq current_report prev_report)
  then send_message (telegram w) ("ERROR – " ++ text error) ;;;
       write copy_current_to_prev
  else ret tt.

(** [try: ... except Exception: ...]; a [continue] passes through. *)
Definition try_except (w : cycle_env) : M unit :=
  fun s =>
    match main_try w s with
    | (Raised e, s1, ev1) =>
        if derives_from_Exception (cls e)
        then match main_except w e s1 with
             | (r, s2, ev2) => (r, s2, (ev1 ++ ev2)%list)
             end
        else (Raised e, s1, ev1)
    | other => other
    end.

(** One turn of [while True]: the [finally] clause sleeps however the
    [try] statement ended; then [continue] and falling off the end both
    start the next turn, and an exception that is still raised leaves the
    loop. *)
Definition iteration (w : cycle_env) : M unit :=
  fun s =>
    match try_except w s with
    | (Normal _, s1, ev) => (Normal tt, s1, (ev ++ [Slept RETRY_PERIOD])%list)
    | (Continue, s1, ev) => (Normal tt, s1, (ev ++ [Slept RETRY_PERIOD])%list)
    | (Raised e, s1, ev) => (Raised e, s1, (ev ++ [Slept RETRY_PERIOD])%list)
    end.

(** [while True], over the cycles the outside world provides. *)
Fixpoint main_loop (ws : list cycle_env) : M unit :=
  match ws with
  | [] => ret tt
  | w :: rest => iteration w ;;; main_loop rest
  end.

(** The variables as [main] sets them before the loop (lines 127-129);
    [now] is [int(time.time())]. *)
Definition initial_state (now : Z) : loop_state :=
  mkState (JInt now)
          (mkReport (PJson JNull) (PJson JNull))
          (mkReport (PJson JNull) (PJson JNull))
          0%nat.

(** [main] after [check_tokens]: greets, then loops. *)
Definition main (bot : delivery) (now : Z) (ws : list cycle_env)
  : flow unit * loop_state * list event :=
  (send_message bot "---Bot engaged" ;;; main_loop ws) (initial_state now).

(** States the loop can be in at the start of a turn. *)
Inductive reachable : loop_state -> Prop :=
| reach_init : forall now, reachable (initial_state now)
| reach_step : forall s w r s' ev,
    reachable s -> iteration w s = (r, s', ev) -> reachable s'.

(** What was sent among some events. *)
Fixpoint sent_messages (evs : list event) : list string :=
  match evs with
  | [] => []
  | Sent m _ :: rest => m :: sent_messages rest
  | Slept _ :: rest => sent_messages rest
  end.

End Loop.

(** ** Vocabulary of the statements *)

(** The key is absent from the dict or bound to None. *)
Definition absent_or_null (fields : list (string * json)) (key : string) : Prop :=
  lookup key fields = None \/ lookup key fields = Some JNull.

(** The value has a hash: it is no list and no dict. *)
Definition hashable (v : json) : bool :=
  match v with
  | JList _ | JObj _ => false
  | _ => true
  end.

(** The value is one of the three statuses of the verdict table. *)
Definition known_status (v : json) : bool :=
  match v with
  | JStr s => mem_key s ["approved"; "reviewing"; "rejected"]
  | _ => false
  end.

Definition flow_of {A : Type} (x : flow A * loop_state * list event) : flow A :=
  fst (fst x).

Definition state_after {A : Type} (x : flow A * loop_state * list event) : loop_state :=
  snd (fst x).

Definition events_of {A : Type} (x : flow A * loop_state * list event) : list event :=
  snd x.

(** How many times the loop slept among some events. *)
Fixpoint naps (evs : list event) : nat :=
  match evs with
  | [] => 0%nat
  | Slept _ :: rest => S (naps rest)
  | Sent _ _ :: rest => naps rest
  end.

(** No exception object held in a report has the identity [n] or a
    later one. *)
Definition older_than (n : nat) (v : pyval) : Prop :=
  match v with
  | PJson _ => True
  | PExc i _ => (i < n)%nat
  end.

Definition objects_allocated (s : loop_state) : Prop :=
  older_than (next_obj s) (homework (current_report s))
  /\ older_than (next_obj s) (output (current_report s))
  /\ older_than (next_obj s) (homework (prev_report s))
  /\ older_than (next_obj s) (output (prev_report s)).

(** ** Inputs the examples run on *)

(** The statements below hold for every interpreter; the examples are
    evaluated with this one, whose texts are left empty. *)
Definition silent : interpreter :=
  mkInterpreter (fun _ => EmptyString) (fun _ => EmptyString).

Definition homework_X_approved : list (string * json) :=
  [("homework_name", JStr "X"); ("status", JStr "approved")].

(** The answer of the specification's end-to-end example. *)
Definition answer_hw1 : json :=
  JObj [("homeworks",
         JList [JObj [("homework_name", JStr "hw1"); ("status", JStr "reviewing")]]);
        ("current_date", JInt 2000)].

Definition answer_no_homeworks : json :=
  JObj [("homeworks", JList []); ("current_date", JInt 2000)].

(** A first homework without the key [homework_name]. *)
Definition answer_nameless : json :=
  JObj [("homeworks", JList [JObj [("status", JStr "approved")]]);
        ("current_date", JInt 2000)].

(** A first homework whose [homework_name] is null. *)
Definition answer_null_name : json :=
  JObj [("homeworks",
         JList [JObj [("homework_name", JNull); ("status", JStr "approved")]]);
        ("current_date", JInt 2000)].

Definition cycle_with (answer : json) : cycle_env :=
  mkEnv (Responded 200 (Ok answer)) Delivered.

Definition cycle_offline : cycle_env :=
  mkEnv (RequestFailed "connection refused") Delivered.

(** The loop's variables after the end-to-end example's turn, started at
    time 1000. *)
Definition state_after_hw1 : loop_state :=
  state_after (iteration silent (cycle_with answer_hw1) (initial_state 1000)).

(** ** check_tokens and the start of main *)

(** The set literal of [check_tokens]: a name with the value read from
    the environment, None when the variable is not set. *)
Definition token_pairs (PRACTICUM_TOKEN TELEGRAM_TOKEN TELEGRAM_CHAT_ID : option string)
  : list (string * option string) :=
  [ ("PRACTICUM_TOKEN", PRACTICUM_TOKEN);
    ("TELEGRAM_TOKEN", TELEGRAM_TOKEN);
    ("TELEGRAM_CHAT_ID", TELEGRAM_CHAT_ID) ].

(** The order in which iterating a set yields its elements: the
    interpreter's choice. *)
Definition set_order : Type :=
  list (string * option string) -> list (string * option string).

(** An order yields every element once. *)
Definition iterates (order : set_order) : Prop :=
  forall l, Permutation (order l) l.

(** [token is None] *)
Definition token_missing (t : string * option string) : bool :=
  match snd t with
  | None => true
  | Some _ => false
  end.

(** [repr] of a list of variable names.  The names are identifiers with
    nothing to escape: the repr of each is the name in single quotes. *)
Definition repr_names (names : list string) : string :=
  "[" ++ String.concat ", " (map (fun n => squote ++ n ++ squote) names) ++ "]".

(** *** check_tokens *)
Definition check_tokens (order : set_order)
    (PRACTICUM_TOKEN TELEGRAM_TOKEN TELEGRAM_CHAT_ID : option string) : result unit :=
  let tokens := order (token_pairs PRACTICUM_TOKEN TELEGRAM_TOKEN TELEGRAM_CHAT_ID) in
  let tokens_missing := map fst (filter token_missing tokens) in
  match tokens_missing with
  | [] => Ok tt
  | _ :: _ =>
      Raise (mkExc TokenNotFound
               ("One or more environment variable not found: "
                ++ repr_names tokens_missing))
  end.

(** The whole of [main] (lines 121-131).  An error of [check_tokens] is
    not caught, and nothing after it runs.  [new_bot] is the constructor
    [telegram.Bot], called with the module's TELEGRAM_TOKEN: the library
    decides whether it accepts the token or raises, and what it raises is
    not caught either. *)
Definition main_with_tokens (py : interpreter) (order : set_order)
    (new_bot : option string -> result unit)
    (PRACTICUM_TOKEN TELEGRAM_TOKEN TELEGRAM_CHAT_ID : option string)
    (bot : delivery) (now : Z) (ws : list cycle_env)
  : result (flow unit * loop_state * list event) :=
  match check_tokens order PRACTICUM_TOKEN TELEGRAM_TOKEN TELEGRAM_CHAT_ID with
  | Raise e => Raise e
  | Ok _ =>
      match new_bot TELEGRAM_TOKEN with
      | Raise e => Raise e
      | Ok _ => Ok (main py bot now ws)
      end
  end.

(** The states the loop can be in while no turn has yet run the body of
    [try] to its end: the start, and what turns that raised or met an
    empty list make of such a state. *)
Inductive no_success_yet (py : interpreter) : loop_state -> Prop :=
| none_at_start : forall now, no_success_yet py (initial_state now)
| none_after_turn : forall s w,
    no_success_yet py s ->
    flow_of (main_try py w s) <> Normal tt ->
    no_success_yet py (state_after (iteration py w s)).

(** The first homework of the end-to-end example, approved later on. *)
Definition answer_hw1_approved : json :=
  JObj [("homeworks",
         JList [JObj [("homework_name", JStr "hw1"); ("status", JStr "approved")]]);
        ("current_date", JInt 3000)].

(** A list whose first homework is a string, not a record. *)
Definition answer_string_homework : json :=
  JObj [("homeworks", JList [JStr "hw1"]); ("current_date", JInt 2000)].

(** ** Facts about text and lookups *)

Lemma append_assoc (a b c : string) : (a ++ b) ++ c = a ++ b ++ c.
Proof.
  induction a as [| ch a IH]; simpl; [reflexivity | now rewrite IH].
Qed.

Lemma append_empty_r (a : string) : a ++ "" = a.
Proof.
  induction a as [| ch a IH]; simpl; [reflexivity | now rewrite IH].
Qed.

Lemma includes_middle (a b c : string) : includes (a ++ b ++ c) b.
Proof. exists a, c. reflexivity. Qed.

Lemma includes_end (a b : string) : includes (a ++ b) b.
Proof. exists a, "". now rewrite append_empty_r. Qed.

Lemma absent_or_null_get (fields : list (string * json)) (key : string) :
  absent_or_null fields key <-> is_none (dict_get fields key) = true.
Proof.
  unfold absent_or_null, dict_get. split.
  - intros [-> | ->]; reflexivity.
  - destruct (lookup key fields) as [[| | | | |] |]; simpl; intros H;
      try discriminate; auto.
Qed.

Lemma present_get (fields : list (string * json)) (key : string) :
  ~ absent_or_null fields key <-> is_none (dict_get fields key) = false.
Proof.
  rewrite absent_or_null_get. destruct (is_none (dict_get fields key)).
  - split; [intros H; now destruct H | discriminate].
  - split; [reflexivity | intros _ H; discriminate].
Qed.

Lemma lookup_verdict_known (s : string) :
  mem_key s ["approved"; "reviewing"; "rejected"] = false ->
  lookup s HOMEWORK_VERDICTS = None.
Proof.
  simpl. destruct (String.eqb s "approved"); [discriminate |].
  destruct (String.eqb s "reviewing"); [discriminate |].
  destruct (String.eqb s "rejected"); [discriminate | reflexivity].
Qed.

(** ** parse_status *)

(** C6.  For a homework record whose status is "approved" and whose
    homework_name is the string X, parse_status returns exactly
    [Изменился статус проверки работы "X". Работа проверена: ревьюеру всё
    понравилось. Ура!]. *)
Theorem parse_status_approved (py : interpreter)
    (fields : list (string * json)) (X : string) :
  lookup "homework_name" fields = Some (JStr X) ->
  lookup "status" fields = Some (JStr "approved") ->
  parse_status py (JObj fields)
  = Ok ("Изменился статус проверки работы " ++ dquote ++ X ++ dquote
        ++ ". Работа проверена: ревьюеру всё понравилось. Ура!").
Proof.
  intros Hname Hstatus. unfold parse_status, dict_get.
  rewrite Hname, Hstatus. reflexivity.
Qed.

Lemma parse_status_approved_X :
  parse_status silent (JObj homework_X_approved)
  = Ok ("Изменился статус проверки работы " ++ dquote ++ "X" ++ dquote
        ++ ". Работа проверена: ревьюеру всё понравилось. Ура!").
Proof.
  apply (parse_status_approved silent homework_X_approved "X"); reflexivity.
Defined.

(** C7.  The claim asks for the unexpected-status error on every status
    outside the table.  The guard of parse_status gives it for an absent
    status, None, a bool, an int and any other string, but on this
    record, whose status is a list, the membership test itself raises
    TypeError, whatever the interpreter, and no unexpected-status error
    is raised. *)
Theorem parse_status_list_status_type_error (py : interpreter) :
  parse_status py (JObj [("homework_name", JStr "X"); ("status", JList [])])
  = Raise (mkExc TypeError (fault_text py (Unhashable (JList []))))
  /\ forall message,
       parse_status py (JObj [("homework_name", JStr "X"); ("status", JList [])])
       <> Raise (mkExc HomeworkStatusError message).
Proof.
  split; [reflexivity | intros message H; discriminate H].
Qed.

(** X17.  A record whose homework_name is absent or null raises the
    name-missing error.  A record with a name, whose status is absent,
    null, a bool, an int or a string and is none of "approved",
    "reviewing", "rejected", raises the unexpected-status error, with the
    status in its message. *)
Theorem parse_status_name_and_status_errors (py : interpreter)
    (fields : list (string * json)) :
  (absent_or_null fields "homework_name" ->
   parse_status py (JObj fields)
   = Raise (mkExc HomeworkNameNotFoundError
              ("Key " ++ dquote ++ "homework_name" ++ dquote
               ++ " not found in this homework")))
  /\ (~ absent_or_null fields "homework_name" ->
      hashable (dict_get fields "status") = true ->
      known_status (dict_get fields "status") = false ->
      parse_status py (JObj fields)
      = Raise (mkExc HomeworkStatusError
                 ("Unexpected status of homework: " ++ dquote
                  ++ py_str py (dict_get fields "status") ++ dquote))).
Proof.
  split.
  - intros H. apply absent_or_null_get in H. unfold parse_status.
    now rewrite H.
  - intros H Hh Hk. apply present_get in H. unfold parse_status.
    rewrite H. destruct (dict_get fields "status") as [| b | n | s | l | f];
      try discriminate Hh; try reflexivity.
    unfold verdict_of. now rewrite (lookup_verdict_known s Hk).
Qed.

Lemma parse_status_name_and_status_errors_run :
  parse_status silent (JObj [("status", JStr "approved")])
  = Raise (mkExc HomeworkNameNotFoundError
             ("Key " ++ dquote ++ "homework_name" ++ dquote
              ++ " not found in this homework"))
  /\ parse_status silent (JObj [("homework_name", JStr "X"); ("status", JInt (-5))])
     = Raise (mkExc HomeworkStatusError
                ("Unexpected status of homework: " ++ dquote ++ "-5" ++ dquote)).
Proof.
  split.
  - apply (proj1 (parse_status_name_and_status_errors silent
                    [("status", JStr "approved")])).
    left. reflexivity.
  - apply (proj2 (parse_status_name_and_status_errors silent
                    [("homework_name", JStr "X"); ("status", JInt (-5))])).
    + intros [H | H]; discriminate H.
    + reflexivity.
    + reflexivity.
Defined.

(** ** check_response *)

Lemma check_response_first_key (fields : list (string * json)) :
  is_none (dict_get fields "homeworks") = true ->
  check_response (JObj fields)
  = Raise (mkExc APIKeyError "API response doesn't contain key 'homeworks'").
Proof. intros H. unfold check_response. simpl. now rewrite H. Qed.

Lemma check_response_second_key (fields : list (string * json)) :
  is_none (dict_get fields "homeworks") = false ->
  is_none (dict_get fields "current_date") = true ->
  check_response (JObj fields)
  = Raise (mkExc APIKeyError "API response doesn't contain key 'current_date'").
Proof. intros H1 H2. unfold check_response. simpl. now rewrite H1, H2. Qed.

Lemma check_response_keys_present (fields : list (string * json)) :
  is_none (dict_get fields "homeworks") = false ->
  is_none (dict_get fields "current_date") = false ->
  check_response (JObj fields)
  = match dict_get fields "homeworks" with
    | JList _ => Ok tt
    | _ => Raise (mkExc TypeError "Key `homeworks` in API response is not list type")
    end.
Proof. intros H1 H2. unfold check_response. simpl. now rewrite H1, H2. Qed.

(** What an accepted response looks like. *)
Lemma check_response_accepts (response : json) :
  check_response response = Ok tt ->
  exists fields homeworks current_date,
    response = JObj fields
    /\ lookup "homeworks" fields = Some (JList homeworks)
    /\ lookup "current_date" fields = Some current_date
    /\ current_date <> JNull.
Proof.
  destruct response as [| b | n | s | l | fields]; try discriminate.
  intros H. exists fields.
  destruct (is_none (dict_get fields "homeworks")) eqn:H1.
  { rewrite (check_response_first_key _ H1) in H. discriminate. }
  destruct (is_none (dict_get fields "current_date")) eqn:H2.
  { rewrite (check_response_second_key _ H1 H2) in H. discriminate. }
  rewrite (check_response_keys_present _ H1 H2) in H.
  unfold dict_get in *.
  destruct (lookup "homeworks" fields) as [[| ? | ? | ? | homeworks | ?] |];
    try discriminate.
  destruct (lookup "current_date" fields) as [current_date |]; [| discriminate].
  exists homeworks, current_date. repeat split.
  intros ->. discriminate.
Qed.

(** C8.  check_response raises an error on a value that is no mapping;
    on a mapping in which 'homeworks' or 'current_date' is absent or null
    it raises the structural error (APIKeyError) whose message names a
    missing key; on a mapping whose 'homeworks' is present but no list it
    raises an error; on every other value it raises nothing; and it
    changes no state. *)
Theorem check_response_contract (response : json) :
  ((forall fields, response <> JObj fields) ->
   check_response response
   = Raise (mkExc TypeError "Unexpected data structure in API response"))
  /\ (forall fields,
        response = JObj fields ->
        absent_or_null fields "homeworks" \/ absent_or_null fields "current_date" ->
        exists key message,
          In key ["homeworks"; "current_date"]
          /\ absent_or_null fields key
          /\ check_response response = Raise (mkExc APIKeyError message)
          /\ message = "API response doesn't contain key '" ++ key ++ "'"
          /\ includes message key)
  /\ (forall fields,
        response = JObj fields ->
        ~ absent_or_null fields "homeworks" ->
        (forall items, dict_get fields "homeworks" <> JList items) ->
        exists e, check_response response = Raise e
                  /\ (cls e = TypeError \/ cls e = APIKeyError))
  /\ (forall fields items,
        response = JObj fields ->
        dict_get fields "homeworks" = JList items ->
        ~ absent_or_null fields "current_date" ->
        check_response response = Ok tt)
  /\ (forall s : loop_state,
        state_after (lift (check_response response) s) = s
        /\ events_of (lift (check_response response) s) = []).
Proof.
  split; [| split; [| split; [| split]]].
  - intros H. destruct response as [| b | n | s | l | fields]; try reflexivity.
    now destruct (H fields).
  - intros fields -> H.
    destruct (is_none (dict_get fields "homeworks")) eqn:H1.
    + exists "homeworks", "API response doesn't contain key 'homeworks'".
      repeat split.
      * simpl; auto.
      * now apply absent_or_null_get.
      * now apply check_response_first_key.
      * apply (includes_middle "API response doesn't contain key '" "homeworks" "'").
    + destruct H as [H | H]; apply absent_or_null_get in H; [congruence |].
      exists "current_date", "API response doesn't contain key 'current_date'".
      repeat split.
      * simpl; auto.
      * now apply absent_or_null_get.
      * now apply check_response_second_key.
      * apply (includes_middle "API response doesn't contain key '" "current_date" "'").
  - intros fields -> H Hlist. apply present_get in H.
    destruct (is_none (dict_get fields "current_date")) eqn:H2.
    + rewrite (check_response_second_key _ H H2). eexists; split; [reflexivity |].
      now right.
    + rewrite (check_response_keys_present _ H H2).
      destruct (dict_get fields "homeworks") as [| ? | ? | ? | items | ?];
        try (eexists; split; [reflexivity | now left]).
      now destruct (Hlist items).
  - intros fields items -> Hlist H. apply present_get in H.
    rewrite check_response_keys_present; [now rewrite Hlist | | exact H].
    now rewrite Hlist.
  - intros s. unfold lift, state_after, events_of.
    destruct (check_response response); split; reflexivity.
Qed.

Lemma check_response_contract_run :
  check_response (JList [])
  = Raise (mkExc TypeError "Unexpected data structure in API response")
  /\ (exists key message,
        In key ["homeworks"; "current_date"]
        /\ absent_or_null [("homeworks", JList [])] key
        /\ check_response (JObj [("homeworks", JList [])])
           = Raise (mkExc APIKeyError message)
        /\ message = "API response doesn't contain key '" ++ key ++ "'"
        /\ includes message key)
  /\ check_response answer_hw1 = Ok tt.
Proof.
  split; [| split].
  - apply (proj1 (check_response_contract (JList []))).
    intros fields H. discriminate H.
  - apply (proj1 (proj2 (check_response_contract (JObj [("homeworks", JList [])])))
             [("homeworks", JList [])] eq_refl).
    right. left. reflexivity.
  - refine (proj1 (proj2 (proj2 (proj2 (check_response_contract answer_hw1))))
              _ _ eq_refl eq_refl _).
    intros [H | H]; discriminate H.
Defined.

(** ** get_api_answer *)

(** C9.  When the request fails at the network level get_api_answer
    raises the fetch error (APIError) with a message that includes the
    timestamp and the cause; when the request completes with a status
    other than 200 it raises the fetch error with a message that includes
    the status code; otherwise it returns what decoding the body as JSON
    gives. *)
Theorem get_api_answer_contract (py : interpreter) (timestamp : json) :
  (forall cause, exists message,
      get_api_answer py (RequestFailed cause) timestamp
      = Raise (mkExc APIError message)
      /\ includes message (py_str py timestamp)
      /\ includes message cause)
  /\ (forall status_code body,
        status_code <> 200 ->
        exists message,
          get_api_answer py (Responded status_code body) timestamp
          = Raise (mkExc APIError message)
          /\ includes message (str_int status_code))
  /\ (forall body,
        get_api_answer py (Responded 200 body) timestamp = body).
Proof.
  split; [| split].
  - intros cause. eexists. split; [reflexivity | split].
    + exists ("API didn't return correct answer. Error " ++ cause ++ ". From date: "), "".
      rewrite append_empty_r, !append_assoc. reflexivity.
    + exists "API didn't return correct answer. Error ",
        (". From date: " ++ py_str py timestamp).
      reflexivity.
  - intros status_code body H. eexists. unfold get_api_answer.
    destruct (Z.eqb_spec status_code HTTP_OK) as [E | E]; [now destruct H |].
    split; [reflexivity | apply includes_end].
  - intros body. reflexivity.
Qed.

Lemma get_api_answer_contract_run :
  (exists message,
     get_api_answer silent (Responded 404 (Ok answer_hw1)) (JInt 1000)
     = Raise (mkExc APIError message)
     /\ includes message "404")
  /\ get_api_answer silent (Responded 200 (Ok answer_hw1)) (JInt 1000)
     = Ok answer_hw1.
Proof.
  split.
  - apply (proj1 (proj2 (get_api_answer_contract silent (JInt 1000)))
             404 (Ok answer_hw1)).
    discriminate.
  - apply (proj2 (proj2 (get_api_answer_contract silent (JInt 1000)))).
Defined.

(** ** Equality of decoded values *)

(** Induction on a decoded value, with the items of a list and the
    values of a dict as smaller values. *)
Lemma json_nested_ind (P : json -> Prop) :
  P JNull ->
  (forall b, P (JBool b)) ->
  (forall n, P (JInt n)) ->
  (forall s, P (JStr s)) ->
  (forall items, Forall P items -> P (JList items)) ->
  (forall fields, Forall (fun kv => P (snd kv)) fields -> P (JObj fields)) ->
  forall v, P v.
Proof.
  intros P_null P_bool P_int P_str P_list P_obj.
  fix IH 1. intros [| b | n | s | items | fields].
  - exact P_null.
  - apply P_bool.
  - apply P_int.
  - apply P_str.
  - apply P_list. induction items as [| x rest IHrest]; constructor.
    + apply IH.
    + exact IHrest.
  - apply P_obj. induction fields as [| [k x] rest IHrest]; constructor.
    + apply IH.
    + exact IHrest.
Qed.

Lemma mem_key_app (k : string) (a b : list string) :
  mem_key k (a ++ b) = mem_key k a || mem_key k b.
Proof.
  induction a as [| x a IH]; simpl; [reflexivity |].
  now rewrite IH, orb_assoc.
Qed.

Lemma mem_key_In (k : string) (l : list string) : In k l -> mem_key k l = true.
Proof.
  induction l as [| x l IH]; simpl; [intros [] |].
  intros [-> | H].
  - now rewrite String.eqb_refl.
  - rewrite (IH H). apply orb_true_r.
Qed.

Lemma lookup_skip {A : Type} (k : string) (pre rest : list (string * A)) :
  mem_key k (map fst pre) = false -> lookup k (pre ++ rest) = lookup k rest.
Proof.
  induction pre as [| [k' v'] pre IH]; simpl; [reflexivity |].
  destruct (String.eqb k k'); simpl; [discriminate | exact IH].
Qed.

Lemma items_eq_refl (xs : list json) :
  Forall (fun x => py_eq x x = true) xs -> items_eq py_eq xs xs = true.
Proof.
  induction 1 as [| x xs Hx _ IH]; simpl; [reflexivity |].
  now rewrite Hx, IH.
Qed.

Lemma entries_eq_refl (f : list (string * json)) :
  Forall (fun kv => py_eq (snd kv) (snd kv) = true) f ->
  forall pre seen,
    (forall k, mem_key k seen = mem_key k (map fst pre)) ->
    entries_eq py_eq (pre ++ f) seen f = true.
Proof.
  induction 1 as [| [k v] f Hv _ IH]; intros pre seen Hseen; simpl;
    [reflexivity |].
  apply andb_true_intro. split.
  - destruct (mem_key k seen) eqn:Hk; [reflexivity |].
    rewrite lookup_skip by (now rewrite <- Hseen).
    simpl. rewrite String.eqb_refl. exact Hv.
  - replace (pre ++ (k, v) :: f)%list with ((pre ++ [(k, v)]) ++ f)%list
      by (now rewrite <- app_assoc).
    apply IH. intros k0. rewrite map_app, mem_key_app. simpl.
    rewrite Hseen, orb_false_r. apply orb_comm.
Qed.

(** A decoded value equals itself. *)
Lemma py_eq_refl (v : json) : py_eq v v = true.
Proof.
  induction v as [| b | n | s | items IH | fields IH] using json_nested_ind; simpl.
  - reflexivity.
  - now destruct b.
  - apply Z.eqb_refl.
  - apply String.eqb_refl.
  - now apply items_eq_refl.
  - apply andb_true_intro. split.
    + now apply (entries_eq_refl fields IH []).
    + apply forallb_forall. intros k Hk. now apply mem_key_In.
Qed.

Lemma report_eq_refl (name message : json) :
  report_eq (mkReport (PJson name) (PJson message))
            (mkReport (PJson name) (PJson message)) = true.
Proof. unfold report_eq. simpl. now rewrite !py_eq_refl. Qed.

(** A report that holds a new exception object equals no report whose
    objects are all older. *)
Lemma report_eq_new_object (n : nat) (e : exc) (h : pyval) (prev : report) :
  older_than n (output prev) ->
  report_eq (mkReport h (PExc n e)) prev = false.
Proof.
  intros H. unfold report_eq. simpl.
  destruct (output prev) as [v | i e']; simpl in *.
  - apply andb_false_r.
  - replace (Nat.eqb n i) with false; [apply andb_false_r |].
    symmetry. apply Nat.eqb_neq. lia.
Qed.

(** ** The body of [try], stage by stage *)

Section TryStages.

Variable py : interpreter.
Variable w : cycle_env.
Variable s : loop_state.

Lemma main_try_fetch_raises (e : exc) :
  get_api_answer py (http w) (timestamp s) = Raise e ->
  main_try py w s = (Raised e, s, []).
Proof.
  intros H. unfold main_try, bind, read, lift. now rewrite H.
Qed.

Lemma main_try_validation_raises (response : json) (e : exc) :
  get_api_answer py (http w) (timestamp s) = Ok response ->
  check_response response = Raise e ->
  main_try py w s = (Raised e, s, []).
Proof.
  intros H1 H2. unfold main_try, bind, read, lift. rewrite H1. now rewrite H2.
Qed.

Lemma main_try_no_homeworks (response : json) :
  get_api_answer py (http w) (timestamp s) = Ok response ->
  check_response response = Ok tt ->
  subscript py response "homeworks" = Ok (JList []) ->
  main_try py w s = (Continue, s, []).
Proof.
  intros H1 H2 H3. unfold main_try, bind, read, lift. rewrite H1, H2, H3.
  reflexivity.
Qed.

Lemma main_try_extraction_raises (response homework : json)
    (rest : list json) (e : exc) :
  get_api_answer py (http w) (timestamp s) = Ok response ->
  check_response response = Ok tt ->
  subscript py response "homeworks" = Ok (JList (homework :: rest)) ->
  subscript py homework "homework_name" = Raise e ->
  main_try py w s = (Raised e, s, []).
Proof.
  intros H1 H2 H3 H4. unfold main_try, bind, read, lift.
  rewrite H1, H2, H3, H4. reflexivity.
Qed.

Lemma main_try_parsing_raises (response homework name : json)
    (rest : list json) (e : exc) :
  get_api_answer py (http w) (timestamp s) = Ok response ->
  check_response response = Ok tt ->
  subscript py response "homeworks" = Ok (JList (homework :: rest)) ->
  subscript py homework "homework_name" = Ok name ->
  parse_status py homework = Raise e ->
  main_try py w s = (Raised e, set_current_homework (PJson name) s, []).
Proof.
  intros H1 H2 H3 H4 H5. unfold main_try, bind, read, lift, write.
  rewrite H1, H2, H3, H4, H5. reflexivity.
Qed.

Lemma main_try_succeeds (response homework name current_date : json)
    (rest : list json) (message : string) :
  get_api_answer py (http w) (timestamp s) = Ok response ->
  check_response response = Ok tt ->
  subscript py response "homeworks" = Ok (JList (homework :: rest)) ->
  subscript py homework "homework_name" = Ok name ->
  parse_status py homework = Ok message ->
  subscript py response "current_date" = Ok current_date ->
  main_try py w s
  = let built := mkReport (PJson name) (PJson (JStr message)) in
    if report_eq built (prev_report s)
    then (Normal tt, mkState current_date built (prev_report s) (next_obj s), [])
    else (Normal tt, mkState current_date built built (next_obj s),
          [Sent message (telegram w)]).
Proof.
  intros H1 H2 H3 H4 H5 H6.
  unfold main_try, bind, read, lift, write, send_message, emit, ret.
  rewrite H1, H2, H3, H4, H5, H6. simpl.
  destruct (report_eq _ _); reflexivity.
Qed.

End TryStages.

Lemma get_api_answer_any_timestamp (py : interpreter) (net : http_outcome)
    (t t' response : json) :
  get_api_answer py net t = Ok response -> get_api_answer py net t' = Ok response.
Proof.
  destruct net as [cause | status_code body]; simpl; [discriminate |].
  now destruct (negb (status_code =? HTTP_OK)).
Qed.

Lemma subscript_accepted (py : interpreter) (response : json) :
  check_response response = Ok tt ->
  exists homeworks current_date,
    subscript py response "homeworks" = Ok (JList homeworks)
    /\ subscript py response "current_date" = Ok current_date
    /\ current_date <> JNull.
Proof.
  intros H. destruct (check_response_accepts response H)
    as (fields & homeworks & current_date & -> & H1 & H2 & H3).
  exists homeworks, current_date. simpl. now rewrite H1, H2.
Qed.

(** A homework that parses is a dict with a name that is not None. *)
Lemma parse_status_ok_name (py : interpreter) (homework : json) (message : string) :
  parse_status py homework = Ok message ->
  exists name, subscript py homework "homework_name" = Ok name /\ name <> JNull.
Proof.
  destruct homework as [| ? | ? | ? | ? | fields]; try discriminate.
  unfold parse_status, dict_get, subscript.
  destruct (lookup "homework_name" fields) as [name |]; [| discriminate].
  destruct name; try discriminate; intros _; eexists; split;
    try reflexivity; discriminate.
Qed.

(** Every way the body of [try] can end. *)
Lemma main_try_cases (py : interpreter) (w : cycle_env) (s : loop_state) :
  (exists e,
      main_try py w s = (Raised e, s, [])
      \/ exists name,
          main_try py w s = (Raised e, set_current_homework (PJson name) s, []))
  \/ main_try py w s = (Continue, s, [])
  \/ (exists name message current_date,
        main_try py w s
        = if report_eq (mkReport (PJson name) (PJson (JStr message))) (prev_report s)
          then (Normal tt,
                mkState current_date
                        (mkReport (PJson name) (PJson (JStr message)))
                        (prev_report s) (next_obj s), [])
          else (Normal tt,
                mkState current_date
                        (mkReport (PJson name) (PJson (JStr message)))
                        (mkReport (PJson name) (PJson (JStr message)))
                        (next_obj s),
                [Sent message (telegram w)])).
Proof.
  destruct (get_api_answer py (http w) (timestamp s)) as [response | e] eqn:H1.
  2: { left. exists e. left. now apply main_try_fetch_raises. }
  destruct (check_response response) as [[] | e] eqn:H2.
  2: { left. exists e. left. now apply main_try_validation_raises with response. }
  destruct (subscript_accepted py response H2)
    as (homeworks & current_date & H3 & H6 & _).
  destruct homeworks as [| homework rest].
  { right. left. now apply main_try_no_homeworks with response. }
  destruct (subscript py homework "homework_name") as [name | e] eqn:H4.
  2: { left. exists e. left.
       now apply main_try_extraction_raises with response homework rest. }
  destruct (parse_status py homework) as [message | e] eqn:H5.
  2: { left. exists e. right. exists name.
       now apply main_try_parsing_raises with response homework rest. }
  right. right. exists name, message, current_date.
  now apply main_try_succeeds with response homework rest.
Qed.

(** ** One turn of the loop *)

Lemma iteration_after_raise (py : interpreter) (w : cycle_env)
    (s s1 : loop_state) (e : exc) (ev1 : list event) :
  main_try py w s = (Raised e, s1, ev1) ->
  iteration py w s
  = if report_eq (mkReport (homework (current_report s1)) (PExc (next_obj s1) e))
                 (prev_report s1)
    then (Normal tt,
          mkState (timestamp s1)
                  (mkReport (homework (current_report s1)) (PExc (next_obj s1) e))
                  (prev_report s1) (S (next_obj s1)),
          (ev1 ++ [Slept RETRY_PERIOD])%list)
    else (Normal tt,
          mkState (timestamp s1)
                  (mkReport (homework (current_report s1)) (PExc (next_obj s1) e))
                  (mkReport (homework (current_report s1)) (PExc (next_obj s1) e))
                  (S (next_obj s1)),
          (ev1 ++ [Sent ("ERROR – " ++ text e) (telegram w); Slept RETRY_PERIOD])%list).
Proof.
  intros H. unfold iteration, try_except. rewrite H.
  replace (derives_from_Exception (cls e)) with true by (now destruct (cls e)).
  unfold main_except, bind, new_exception, write, read, send_message, emit, ret.
  simpl. destruct (report_eq _ _); simpl.
  - now rewrite app_nil_r.
  - now rewrite <- app_assoc.
Qed.

Lemma iteration_after_continue (py : interpreter) (w : cycle_env)
    (s s1 : loop_state) (ev1 : list event) :
  main_try py w s = (Continue, s1, ev1) ->
  iteration py w s = (Normal tt, s1, (ev1 ++ [Slept RETRY_PERIOD])%list).
Proof.
  intros H. unfold iteration, try_except. now rewrite H.
Qed.

Lemma iteration_after_normal (py : interpreter) (w : cycle_env)
    (s s1 : loop_state) (ev1 : list event) :
  main_try py w s = (Normal tt, s1, ev1) ->
  iteration py w s = (Normal tt, s1, (ev1 ++ [Slept RETRY_PERIOD])%list).
Proof.
  intros H. unfold iteration, try_except. now rewrite H.
Qed.

(** Every way one turn can go: the error path, an empty list, the
    success path. *)
Lemma iteration_cases (py : interpreter) (w : cycle_env) (s : loop_state) :
  (exists e h,
      (h = homework (current_report s) \/ exists name, h = PJson name)
      /\ iteration py w s
         = if report_eq (mkReport h (PExc (next_obj s) e)) (prev_report s)
           then (Normal tt,
                 mkState (timestamp s) (mkReport h (PExc (next_obj s) e))
                         (prev_report s) (S (next_obj s)),
                 [Slept RETRY_PERIOD])
           else (Normal tt,
                 mkState (timestamp s) (mkReport h (PExc (next_obj s) e))
                         (mkReport h (PExc (next_obj s) e)) (S (next_obj s)),
                 [Sent ("ERROR – " ++ text e) (telegram w); Slept RETRY_PERIOD]))
  \/ iteration py w s = (Normal tt, s, [Slept RETRY_PERIOD])
  \/ (exists name message current_date,
        iteration py w s
        = if report_eq (mkReport (PJson name) (PJson (JStr message))) (prev_report s)
          then (Normal tt,
                mkState current_date
                        (mkReport (PJson name) (PJson (JStr message)))
                        (prev_report s) (next_obj s),
                [Slept RETRY_PERIOD])
          else (Normal tt,
                mkState current_date
                        (mkReport (PJson name) (PJson (JStr message)))
                        (mkReport (PJson name) (PJson (JStr message)))
                        (next_obj s),
                [Sent message (telegram w); Slept RETRY_PERIOD])).
Proof.
  destruct (main_try_cases py w s)
    as [(e & [H | (name & H)]) | [H | (name & message & current_date & H)]].
  - left. exists e, (homework (current_report s)). split; [now left |].
    now rewrite (iteration_after_raise py w s s e [] H).
  - left. exists e, (PJson name). split; [right; now exists name |].
    now rewrite (iteration_after_raise py w s _ e [] H).
  - right. left. now rewrite (iteration_after_continue py w s s [] H).
  - right. right. exists name, message, current_date.
    destruct (report_eq _ _) eqn:E.
    + now rewrite (iteration_after_normal py w s _ [] H).
    + now rewrite (iteration_after_normal py w s _ _ H).
Qed.

(** A turn ends with the loop still running, after one sleep. *)
Lemma iteration_goes_on (py : interpreter) (w : cycle_env) (s : loop_state) :
  flow_of (iteration py w s) = Normal tt /\ naps (events_of (iteration py w s)) = 1%nat.
Proof.
  destruct (iteration_cases py w s)
    as [(e & h & _ & H) | [H | (name & message & current_date & H)]];
    rewrite H; try destruct (report_eq _ _); split; reflexivity.
Qed.

Lemma naps_app (a b : list event) : naps (a ++ b)%list = (naps a + naps b)%nat.
Proof.
  induction a as [| [m d | n] a IH]; simpl; [reflexivity | exact IH | now rewrite IH].
Qed.

(** The loop runs every turn it is given and is still running after. *)
Lemma main_loop_goes_on (py : interpreter) (ws : list cycle_env) (s : loop_state) :
  flow_of (main_loop py ws s) = Normal tt
  /\ naps (events_of (main_loop py ws s)) = List.length ws.
Proof.
  revert s. induction ws as [| w ws IH]; intros s; [split; reflexivity |].
  simpl. unfold bind.
  destruct (iteration_goes_on py w s) as [Hf Hn].
  destruct (iteration py w s) as [[r s1] ev1].
  unfold flow_of, events_of in Hf, Hn. simpl in Hf, Hn. subst r.
  destruct (IH s1) as [Hf' Hn'].
  destruct (main_loop py ws s1) as [[r2 s2] ev2].
  unfold flow_of, events_of in *. simpl in *. split; [exact Hf' |].
  rewrite naps_app. lia.
Qed.

(** ** Identities of the exception objects *)

Lemma older_than_S (n : nat) (v : pyval) : older_than n v -> older_than (S n) v.
Proof. destruct v; simpl; [trivial | lia]. Qed.

Lemma objects_allocated_iteration (py : interpreter) (w : cycle_env) (s : loop_state) :
  objects_allocated s -> objects_allocated (state_after (iteration py w s)).
Proof.
  intros (H1 & H2 & H3 & H4).
  destruct (iteration_cases py w s)
    as [(e & h & Hh & H) | [H | (name & message & current_date & H)]];
    rewrite H; clear H.
  - assert (Hold : older_than (S (next_obj s)) h).
    { destruct Hh as [-> | (name & ->)]; [now apply older_than_S | exact I]. }
    destruct (report_eq _ _); unfold objects_allocated, state_after; simpl;
      repeat split; auto using older_than_S; lia.
  - unfold objects_allocated, state_after; simpl. auto.
  - destruct (report_eq _ _); unfold objects_allocated, state_after; simpl;
      repeat split; auto.
Qed.

Lemma reachable_objects_allocated (py : interpreter) (s : loop_state) :
  reachable py s -> objects_allocated s.
Proof.
  induction 1 as [now | s w r s' ev _ IH H].
  - unfold objects_allocated. simpl. auto.
  - apply (objects_allocated_iteration py w) in IH.
    rewrite H in IH. exact IH.
Qed.

Lemma main_try_raise_inv (py : interpreter) (w : cycle_env)
    (s s1 : loop_state) (e : exc) (ev1 : list event) :
  main_try py w s = (Raised e, s1, ev1) ->
  ev1 = [] /\ (s1 = s \/ exists name, s1 = set_current_homework (PJson name) s).
Proof.
  intros H.
  destruct (main_try_cases py w s)
    as [(e' & [H' | (name & H')]) | [H' | (name & message & current_date & H')]];
    rewrite H' in H.
  - injection H as _ <- <-. auto.
  - injection H as _ <- <-. split; [reflexivity | right; now exists name].
  - discriminate.
  - destruct (report_eq _ _); discriminate.
Qed.

(** The error path, with the state the turn started in. *)
Lemma iteration_error_path (py : interpreter) (w : cycle_env)
    (s s1 : loop_state) (e : exc) (ev1 : list event) :
  main_try py w s = (Raised e, s1, ev1) ->
  iteration py w s
  = if report_eq (mkReport (homework (current_report s1)) (PExc (next_obj s) e))
                 (prev_report s)
    then (Normal tt,
          mkState (timestamp s)
                  (mkReport (homework (current_report s1)) (PExc (next_obj s) e))
                  (prev_report s) (S (next_obj s)),
          [Slept RETRY_PERIOD])
    else (Normal tt,
          mkState (timestamp s)
                  (mkReport (homework (current_report s1)) (PExc (next_obj s) e))
                  (mkReport (homework (current_report s1)) (PExc (next_obj s) e))
                  (S (next_obj s)),
          [Sent ("ERROR – " ++ text e) (telegram w); Slept RETRY_PERIOD]).
Proof.
  intros H. rewrite (iteration_after_raise py w s s1 e ev1 H).
  destruct (main_try_raise_inv py w s s1 e ev1 H) as [-> [-> | (name & ->)]];
    reflexivity.
Qed.

(** The success path. *)
Lemma iteration_success_path (py : interpreter) (w : cycle_env) (s : loop_state)
    (response homework name current_date : json) (rest : list json)
    (message : string) :
  get_api_answer py (http w) (timestamp s) = Ok response ->
  check_response response = Ok tt ->
  subscript py response "homeworks" = Ok (JList (homework :: rest)) ->
  subscript py homework "homework_name" = Ok name ->
  parse_status py homework = Ok message ->
  subscript py response "current_date" = Ok current_date ->
  iteration py w s
  = if report_eq (mkReport (PJson name) (PJson (JStr message))) (prev_report s)
    then (Normal tt,
          mkState current_date (mkReport (PJson name) (PJson (JStr message)))
                  (prev_report s) (next_obj s),
          [Slept RETRY_PERIOD])
    else (Normal tt,
          mkState current_date (mkReport (PJson name) (PJson (JStr message)))
                  (mkReport (PJson name) (PJson (JStr message))) (next_obj s),
          [Sent message (telegram w); Slept RETRY_PERIOD]).
Proof.
  intros H1 H2 H3 H4 H5 H6.
  pose proof (main_try_succeeds py w s response homework name current_date
                rest message H1 H2 H3 H4 H5 H6) as H.
  cbv zeta in H. destruct (report_eq _ _).
  - now rewrite (iteration_after_normal py w s _ _ H).
  - now rewrite (iteration_after_normal py w s _ _ H).
Qed.

(** An error turn from a state whose objects are all allocated. *)
Lemma error_turn_notifies (py : interpreter) (w : cycle_env)
    (s s1 : loop_state) (e : exc) (ev1 : list event) :
  objects_allocated s ->
  main_try py w s = (Raised e, s1, ev1) ->
  output (current_report (state_after (iteration py w s))) = PExc (next_obj s) e
  /\ report_eq (current_report (state_after (iteration py w s))) (prev_report s)
     = false
  /\ sent_messages (events_of (iteration py w s)) = ["ERROR – " ++ text e]
  /\ prev_report (state_after (iteration py w s))
     = current_report (state_after (iteration py w s)).
Proof.
  intros (_ & _ & _ & Hprev) H.
  rewrite (iteration_error_path py w s s1 e ev1 H).
  rewrite (report_eq_new_object _ e _ _ Hprev).
  unfold state_after, events_of. simpl. repeat split.
  now apply report_eq_new_object.
Qed.

(** ** The loop, turn by turn *)

(** C1.  The claim asks that two identical reports in a row notify once,
    on the error path as on the success path.  On the error path the code
    does not do it: in these two turns the request fails both times with
    the same cause at the same timestamp, the two errors have the same
    class and the same text, and the loop sends that text twice. *)
Theorem identical_errors_notified_twice :
  sent_messages (events_of (main silent Delivered 1000 [cycle_offline; cycle_offline]))
  = ["---Bot engaged";
     "ERROR – API didn't return correct answer. Error connection refused. From date: 1000";
     "ERROR – API didn't return correct answer. Error connection refused. From date: 1000"]
  /\ get_api_answer silent (http cycle_offline)
       (timestamp (state_after (iteration silent cycle_offline (initial_state 1000))))
     = get_api_answer silent (http cycle_offline) (timestamp (initial_state 1000)).
Proof.
  split; reflexivity.
Qed.

(** X16.  On the success path a report is not sent twice: when a turn
    succeeds and the next turn gets the same answer, the second turn
    builds the same report and sends nothing, whether the first turn sent
    its message or found it equal to the previous report. *)
Theorem same_success_report_not_resent (py : interpreter) (w w' : cycle_env)
    (s : loop_state) (response first : json) (rest : list json)
    (message : string) :
  get_api_answer py (http w) (timestamp s) = Ok response ->
  check_response response = Ok tt ->
  subscript py response "homeworks" = Ok (JList (first :: rest)) ->
  parse_status py first = Ok message ->
  http w' = http w ->
  current_report (state_after (iteration py w' (state_after (iteration py w s))))
  = current_report (state_after (iteration py w s))
  /\ sent_messages
       (events_of (iteration py w' (state_after (iteration py w s)))) = [].
Proof.
  intros H1 H2 H3 H5 Hw.
  destruct (parse_status_ok_name py first message H5) as (name & H4 & _).
  destruct (subscript_accepted py response H2)
    as (homeworks & current_date & _ & H6 & _).
  rewrite (iteration_success_path py w s response first name current_date
             rest message H1 H2 H3 H4 H5 H6).
  destruct (report_eq _ (prev_report s)) eqn:Q; unfold state_after; simpl.
  - rewrite (iteration_success_path py w' _ response first name current_date
               rest message); auto.
    + simpl. rewrite Q. split; reflexivity.
    + rewrite Hw. now apply get_api_answer_any_timestamp with (timestamp s).
  - rewrite (iteration_success_path py w' _ response first name current_date
               rest message); auto.
    + simpl. rewrite report_eq_refl. split; reflexivity.
    + rewrite Hw. now apply get_api_answer_any_timestamp with (timestamp s).
Qed.

Lemma same_success_report_not_resent_run :
  current_report
    (state_after (iteration silent (cycle_with answer_hw1)
       (state_after (iteration silent (cycle_with answer_hw1) (initial_state 1000)))))
  = current_report
      (state_after (iteration silent (cycle_with answer_hw1) (initial_state 1000)))
  /\ sent_messages
       (events_of (iteration silent (cycle_with answer_hw1)
          (state_after (iteration silent (cycle_with answer_hw1)
             (initial_state 1000)))))
     = [].
Proof.
  apply (same_success_report_not_resent silent
           (cycle_with answer_hw1) (cycle_with answer_hw1) (initial_state 1000)
           answer_hw1
           (JObj [("homework_name", JStr "hw1"); ("status", JStr "reviewing")])
           []
           ("Изменился статус проверки работы " ++ dquote ++ "hw1" ++ dquote
            ++ ". Работа взята на проверку ревьюером."));
    reflexivity.
Defined.

(** C2.  On the error path the report's output is the exception object
    itself, not its text, so the report of an error turn never equals the
    report kept from before: from every state the loop can be in, a turn
    that raises sends its error notification and adopts its report, and
    when the next turn raises too, with the same class and message, its
    report differs again and it notifies again. *)
Theorem error_reports_always_differ (py : interpreter) (w : cycle_env)
    (s s1 : loop_state) (e : exc) (ev1 : list event) :
  reachable py s ->
  main_try py w s = (Raised e, s1, ev1) ->
  output (current_report (state_after (iteration py w s))) = PExc (next_obj s) e
  /\ report_eq (current_report (state_after (iteration py w s))) (prev_report s)
     = false
  /\ sent_messages (events_of (iteration py w s)) = ["ERROR – " ++ text e]
  /\ prev_report (state_after (iteration py w s))
     = current_report (state_after (iteration py w s))
  /\ (forall w2 s2 ev2,
        main_try py w2 (state_after (iteration py w s)) = (Raised e, s2, ev2) ->
        report_eq
          (current_report
             (state_after (iteration py w2 (state_after (iteration py w s)))))
          (current_report (state_after (iteration py w s)))
        = false
        /\ sent_messages
             (events_of (iteration py w2 (state_after (iteration py w s))))
           = ["ERROR – " ++ text e]).
Proof.
  intros Hs H.
  pose proof (reachable_objects_allocated py s Hs) as Ha.
  destruct (error_turn_notifies py w s s1 e ev1 Ha H) as (A & B & C & D).
  split; [exact A | split; [exact B | split; [exact C | split; [exact D |]]]].
  intros w2 s2 ev2 H2.
  pose proof (objects_allocated_iteration py w s Ha) as Ha'.
  destruct (error_turn_notifies py w2 _ s2 e ev2 Ha' H2) as (_ & B' & C' & _).
  split; [now rewrite <- D | exact C'].
Qed.

Lemma error_reports_always_differ_run :
  output (current_report (state_after (iteration silent cycle_offline state_after_hw1)))
  = PExc (next_obj state_after_hw1)
         (mkExc APIError
            "API didn't return correct answer. Error connection refused. From date: 2000")
  /\ sent_messages
       (events_of (iteration silent cycle_offline
          (state_after (iteration silent cycle_offline state_after_hw1))))
     = ["ERROR – API didn't return correct answer. Error connection refused. From date: 2000"].
Proof.
  pose proof (error_reports_always_differ silent cycle_offline state_after_hw1
                state_after_hw1
                (mkExc APIError
                   "API didn't return correct answer. Error connection refused. From date: 2000")
                []
                (reach_step silent (initial_state 1000) (cycle_with answer_hw1)
                   _ _ _ (reach_init silent 1000) eq_refl)
                eq_refl) as (A & _ & _ & _ & B).
  split; [exact A |].
  exact (proj2 (B cycle_offline _ [] eq_refl)).
Defined.

(** C3.  In a turn where the fetch, the validation and the parsing
    succeed on a list that is not empty, the loop sets the timestamp to
    the response's 'current_date', whether the turn sent its message (the
    report differs from the previous one) or not. *)
Theorem cursor_set_to_current_date (py : interpreter) (w : cycle_env)
    (s : loop_state) (response homework : json) (rest : list json)
    (message : string) :
  get_api_answer py (http w) (timestamp s) = Ok response ->
  check_response response = Ok tt ->
  subscript py response "homeworks" = Ok (JList (homework :: rest)) ->
  parse_status py homework = Ok message ->
  exists name current_date,
    subscript py homework "homework_name" = Ok name
    /\ subscript py response "current_date" = Ok current_date
    /\ timestamp (state_after (iteration py w s)) = current_date
    /\ current_report (state_after (iteration py w s))
       = mkReport (PJson name) (PJson (JStr message))
    /\ sent_messages (events_of (iteration py w s))
       = (if report_eq (mkReport (PJson name) (PJson (JStr message))) (prev_report s)
          then []
          else [message]).
Proof.
  intros H1 H2 H3 H5.
  destruct (parse_status_ok_name py homework message H5) as (name & H4 & _).
  destruct (subscript_accepted py response H2)
    as (homeworks & current_date & _ & H6 & _).
  exists name, current_date.
  rewrite (iteration_success_path py w s response homework name current_date
             rest message H1 H2 H3 H4 H5 H6).
  destruct (report_eq _ _); unfold state_after, events_of; simpl; auto.
Qed.

Lemma cursor_set_to_current_date_run :
  exists name current_date,
    subscript silent
      (JObj [("homework_name", JStr "hw1"); ("status", JStr "reviewing")])
      "homework_name" = Ok name
    /\ subscript silent answer_hw1 "current_date" = Ok current_date
    /\ timestamp (state_after (iteration silent (cycle_with answer_hw1)
                                 (initial_state 1000)))
       = current_date
    /\ current_report (state_after (iteration silent (cycle_with answer_hw1)
                                      (initial_state 1000)))
       = mkReport (PJson name)
           (PJson (JStr ("Изменился статус проверки работы " ++ dquote ++ "hw1"
                         ++ dquote ++ ". Работа взята на проверку ревьюером.")))
    /\ sent_messages (events_of (iteration silent (cycle_with answer_hw1)
                                   (initial_state 1000)))
       = (if report_eq
               (mkReport (PJson name)
                  (PJson (JStr ("Изменился статус проверки работы " ++ dquote
                                ++ "hw1" ++ dquote
                                ++ ". Работа взята на проверку ревьюером."))))
               (prev_report (initial_state 1000))
          then []
          else ["Изменился статус проверки работы " ++ dquote ++ "hw1" ++ dquote
                ++ ". Работа взята на проверку ревьюером."]).
Proof.
  apply (cursor_set_to_current_date silent (cycle_with answer_hw1)
           (initial_state 1000) answer_hw1
           (JObj [("homework_name", JStr "hw1"); ("status", JStr "reviewing")])
           []);
    reflexivity.
Defined.

(** C4.  In a turn whose validated response holds an empty 'homeworks'
    list the loop sends nothing and changes none of its variables: the
    previous report and the timestamp stay, so the next fetch is made
    with the same timestamp. *)
Theorem empty_homeworks_changes_nothing (py : interpreter) (w : cycle_env)
    (s : loop_state) (response : json) :
  get_api_answer py (http w) (timestamp s) = Ok response ->
  check_response response = Ok tt ->
  subscript py response "homeworks" = Ok (JList []) ->
  iteration py w s = (Normal tt, s, [Slept RETRY_PERIOD])
  /\ sent_messages (events_of (iteration py w s)) = []
  /\ prev_report (state_after (iteration py w s)) = prev_report s
  /\ timestamp (state_after (iteration py w s)) = timestamp s
  /\ (forall net,
        get_api_answer py net (timestamp (state_after (iteration py w s)))
        = get_api_answer py net (timestamp s)).
Proof.
  intros H1 H2 H3.
  pose proof (main_try_no_homeworks py w s response H1 H2 H3) as H.
  rewrite (iteration_after_continue py w s s [] H).
  repeat split.
Qed.

Lemma empty_homeworks_changes_nothing_run :
  iteration silent (cycle_with answer_no_homeworks) state_after_hw1
  = (Normal tt, state_after_hw1, [Slept RETRY_PERIOD])
  /\ sent_messages
       (events_of (iteration silent (cycle_with answer_no_homeworks) state_after_hw1))
     = []
  /\ prev_report
       (state_after (iteration silent (cycle_with answer_no_homeworks) state_after_hw1))
     = prev_report state_after_hw1
  /\ timestamp
       (state_after (iteration silent (cycle_with answer_no_homeworks) state_after_hw1))
     = timestamp state_after_hw1
  /\ (forall net,
        get_api_answer silent net
          (timestamp (state_after (iteration silent (cycle_with answer_no_homeworks)
                                     state_after_hw1)))
        = get_api_answer silent net (timestamp state_after_hw1)).
Proof.
  apply (empty_homeworks_changes_nothing silent (cycle_with answer_no_homeworks)
           state_after_hw1 answer_no_homeworks);
    reflexivity.
Defined.



(** The only error of parse_status with the name-missing class is the
    one it raises for a name that is None. *)
Lemma parse_status_name_error (py : interpreter) (fields : list (string * json))
    (e : exc) :
  parse_status py (JObj fields) = Raise e ->
  (cls e = HomeworkNameNotFoundError
   <-> is_none (dict_get fields "homework_name") = true).
Proof.
  unfold parse_status. destruct (is_none (dict_get fields "homework_name")).
  - intros H. injection H as <-. split; reflexivity.
  - destruct (verdict_of py (dict_get fields "status")) as [[v |] | e0] eqn:Hv;
      intros H; try discriminate H; injection H as <-.
    + split; discriminate.
    + destruct (dict_get fields "status"); simpl in Hv; try discriminate Hv;
        injection Hv as <-; split; discriminate.
Qed.

(** C10, as the code has it.  When the first homework is a record
    without the key 'homework_name', the loop's own indexing raises
    KeyError before anything is written to the report and before
    parse_status is called, and the error the loop reports is that
    KeyError.  The name-missing error of parse_status does reach the
    loop, for one kind of record only: a first homework whose
    'homework_name' is present and null. *)
Theorem nameless_homework_in_loop (py : interpreter) (w : cycle_env)
    (s : loop_state) (response : json) (fields : list (string * json))
    (rest : list json) :
  reachable py s ->
  get_api_answer py (http w) (timestamp s) = Ok response ->
  check_response response = Ok tt ->
  subscript py response "homeworks" = Ok (JList (JObj fields :: rest)) ->
  (lookup "homework_name" fields = None ->
   main_try py w s = (Raised (mkExc KeyError "'homework_name'"), s, [])
   /\ output (current_report (state_after (iteration py w s)))
      = PExc (next_obj s) (mkExc KeyError "'homework_name'")
   /\ sent_messages (events_of (iteration py w s)) = ["ERROR – 'homework_name'"])
  /\ (forall e s1 ev1,
        main_try py w s = (Raised e, s1, ev1) ->
        (cls e = HomeworkNameNotFoundError
         <-> lookup "homework_name" fields = Some JNull)).
Proof.
  intros Hs H1 H2 H3. split.
  - intros Hname.
    assert (H : main_try py w s = (Raised (mkExc KeyError "'homework_name'"), s, [])).
    { apply main_try_extraction_raises with response (JObj fields) rest; auto.
      simpl. now rewrite Hname. }
    split; [exact H |].
    pose proof (reachable_objects_allocated py s Hs) as Ha.
    destruct (error_turn_notifies py w s s _ [] Ha H) as (A & _ & C & _).
    split; [exact A | exact C].
  - intros e s1 ev1 H.
    destruct (lookup "homework_name" fields) as [name |] eqn:Hname.
    + assert (H4 : subscript py (JObj fields) "homework_name" = Ok name)
        by (simpl; now rewrite Hname).
      destruct (parse_status py (JObj fields)) as [message | e'] eqn:H5.
      * destruct (subscript_accepted py response H2)
          as (homeworks & current_date & _ & H6 & _).
        pose proof (main_try_succeeds py w s response (JObj fields) name
                      current_date rest message H1 H2 H3 H4 H5 H6) as H'.
        cbv zeta in H'. rewrite H in H'.
        destruct (report_eq _ _); discriminate H'.
      * rewrite (main_try_parsing_raises py w s response (JObj fields) name
                   rest e' H1 H2 H3 H4 H5) in H.
        injection H as <- _ _.
        rewrite (parse_status_name_error py fields e' H5).
        unfold dict_get. rewrite Hname.
        destruct name; simpl; split; intros Q; try discriminate Q; reflexivity.
    + assert (H4 : subscript py (JObj fields) "homework_name"
                   = Raise (mkExc KeyError "'homework_name'"))
        by (simpl; now rewrite Hname).
      rewrite (main_try_extraction_raises py w s response (JObj fields) rest _
                 H1 H2 H3 H4) in H.
      injection H as <- _ _. split; discriminate.
Qed.

Lemma nameless_homework_in_loop_run :
  main_try silent (cycle_with answer_nameless) (initial_state 1000)
  = (Raised (mkExc KeyError "'homework_name'"), initial_state 1000, [])
  /\ output (current_report
               (state_after (iteration silent (cycle_with answer_nameless)
                               (initial_state 1000))))
     = PExc (next_obj (initial_state 1000)) (mkExc KeyError "'homework_name'")
  /\ sent_messages (events_of (iteration silent (cycle_with answer_nameless)
                                  (initial_state 1000)))
     = ["ERROR – 'homework_name'"].
Proof.
  apply (proj1 (nameless_homework_in_loop silent (cycle_with answer_nameless)
                  (initial_state 1000) answer_nameless
                  [("status", JStr "approved")] []
                  (reach_init silent 1000) eq_refl eq_refl eq_refl)).
  reflexivity.
Defined.

(** C10 as stated fails: the first homework of this answer has a null
    'homework_name'; the indexing returns None, parse_status is called
    and raises its name-missing error, and the loop reports that error. *)
Lemma name_error_reaches_loop :
  main_try silent (cycle_with answer_null_name) (initial_state 1000)
  = (Raised (mkExc HomeworkNameNotFoundError
               ("Key " ++ dquote ++ "homework_name" ++ dquote
                ++ " not found in this homework")),
     set_current_homework (PJson JNull) (initial_state 1000), [])
  /\ sent_messages
       (events_of (main silent Delivered 1000 [cycle_with answer_null_name]))
     = ["---Bot engaged";
        "ERROR – Key " ++ dquote ++ "homework_name" ++ dquote
        ++ " not found in this homework"].
Proof.
  split; reflexivity.
Qed.

(** ** check_tokens *)

Lemma filter_permutation {A : Type} (f : A -> bool) (l l' : list A) :
  Permutation l l' -> Permutation (filter f l) (filter f l').
Proof.
  induction 1 as [| x l l' _ IH | x y l | l l' l'' _ IH1 _ IH2]; simpl.
  - constructor.
  - destruct (f x); [now constructor | exact IH].
  - destruct (f x), (f y); try apply Permutation_refl. apply perm_swap.
  - now apply Permutation_trans with (filter f l').
Qed.

(** The names [check_tokens] finds missing are those of the variables
    that are not set, in the order the set yields them. *)
Lemma tokens_missing_permutation (order : set_order)
    (P T C : option string) :
  iterates order ->
  Permutation (map fst (filter token_missing (order (token_pairs P T C))))
              (map fst (filter token_missing (token_pairs P T C))).
Proof.
  intros H. apply Permutation_map, filter_permutation, H.
Qed.

Lemma includes_concat (sep x : string) (l : list string) :
  In x l -> includes (String.concat sep l) x.
Proof.
  induction l as [| y l IH]; [intros [] |].
  intros [-> | H].
  - destruct l as [| z l]; simpl.
    + exists "", "". now rewrite append_empty_r.
    + exists "", (sep ++ String.concat sep (z :: l)). reflexivity.
  - destruct l as [| z l]; [destruct H |].
    destruct (IH H) as (before & after & E).
    exists (y ++ sep ++ before), after.
    change (String.concat sep (y :: z :: l))
      with (y ++ sep ++ String.concat sep (z :: l)).
    rewrite E, !append_assoc. reflexivity.
Qed.

Lemma includes_repr_names (names : list string) (n : string) :
  In n names ->
  includes ("One or more environment variable not found: " ++ repr_names names)
           (squote ++ n ++ squote).
Proof.
  intros H. unfold repr_names.
  destruct (includes_concat ", " (squote ++ n ++ squote)
              (map (fun n => squote ++ n ++ squote) names))
    as (before & after & E).
  { apply (in_map (fun n => squote ++ n ++ squote)), H. }
  exists ("One or more environment variable not found: [" ++ before), (after ++ "]").
  rewrite E, !append_assoc. reflexivity.
Qed.

(** X1.  check_tokens returns without an error exactly when the three
    variables are all set, in whatever order the set is iterated. *)
Theorem check_tokens_ok_iff (order : set_order) (P T C : option string) :
  iterates order ->
  (check_tokens order P T C = Ok tt <-> P <> None /\ T <> None /\ C <> None).
Proof.
  intros H. pose proof (tokens_missing_permutation order P T C H) as Hp.
  unfold check_tokens. cbv zeta.
  destruct (map fst (filter token_missing (order (token_pairs P T C))))
    as [| n names].
  - apply Permutation_nil in Hp. split; [intros _ | reflexivity].
    destruct P, T, C; try discriminate Hp. repeat split; discriminate.
  - split; [discriminate |]. intros (HP & HT & HC).
    destruct P, T, C; try congruence.
    simpl in Hp. apply Permutation_sym, Permutation_nil in Hp. discriminate Hp.
Qed.

Lemma check_tokens_ok_iff_run :
  check_tokens (@rev (string * option string)) (Some "p") (Some "t") (Some "c") = Ok tt
  <-> Some "p" <> None /\ Some "t" <> None /\ Some "c" <> (None : option string).
Proof.
  apply (check_tokens_ok_iff (@rev (string * option string))
           (Some "p") (Some "t") (Some "c")).
  intros l. apply Permutation_sym, Permutation_rev.
Defined.

(** X2.  When check_tokens raises, the error is TokenNotFound and its
    message lists the names of the variables that are not set, all of
    them and no other, each in single quotes. *)
Theorem check_tokens_names_missing (order : set_order) (P T C : option string)
    (e : exc) :
  iterates order ->
  check_tokens order P T C = Raise e ->
  cls e = TokenNotFound
  /\ (exists names,
        Permutation names (map fst (filter token_missing (token_pairs P T C)))
        /\ text e = "One or more environment variable not found: "
                    ++ repr_names names)
  /\ (P = None -> includes (text e) "'PRACTICUM_TOKEN'")
  /\ (T = None -> includes (text e) "'TELEGRAM_TOKEN'")
  /\ (C = None -> includes (text e) "'TELEGRAM_CHAT_ID'").
Proof.
  intros H He. pose proof (tokens_missing_permutation order P T C H) as Hp.
  unfold check_tokens in He. cbv zeta in He.
  destruct (map fst (filter token_missing (order (token_pairs P T C))))
    as [| n names] eqn:E; [discriminate He |].
  injection He as <-. simpl cls. simpl text.
  split; [reflexivity |]. split; [now exists (n :: names) |].
  assert (Hin : forall x,
             In x (map fst (filter token_missing (token_pairs P T C))) ->
             includes ("One or more environment variable not found: "
                       ++ repr_names (n :: names))
                      (squote ++ x ++ squote)).
  { intros x Hx. apply includes_repr_names.
    apply Permutation_in with (1 := Permutation_sym Hp), Hx. }
  split; [| split]; intros ->.
  - apply (Hin "PRACTICUM_TOKEN"). simpl. now left.
  - apply (Hin "TELEGRAM_TOKEN"). destruct P; simpl; auto.
  - apply (Hin "TELEGRAM_CHAT_ID"). destruct P, T; simpl; auto.
Qed.

Lemma check_tokens_names_missing_run :
  cls (mkExc TokenNotFound
         "One or more environment variable not found: ['TELEGRAM_CHAT_ID', 'PRACTICUM_TOKEN']")
  = TokenNotFound
  /\ includes
       "One or more environment variable not found: ['TELEGRAM_CHAT_ID', 'PRACTICUM_TOKEN']"
       "'PRACTICUM_TOKEN'".
Proof.
  destruct (check_tokens_names_missing (@rev (string * option string))
              None (Some "t") None
              (mkExc TokenNotFound
                 "One or more environment variable not found: ['TELEGRAM_CHAT_ID', 'PRACTICUM_TOKEN']")
              (fun l => Permutation_sym (Permutation_rev l)) eq_refl)
    as (A & _ & B & _ & _).
  exact (conj A (B eq_refl)).
Defined.

(** X3.  With a variable not set, main stops on TokenNotFound before it
    greets, fetches or sleeps; with the three set, it stops as well, on
    whatever telegram.Bot raises, when the constructor refuses the token;
    and when the constructor accepts it, main greets first, then runs
    every turn, sleeping once in each, and no exception ends it. *)
Theorem main_with_tokens_start (py : interpreter) (order : set_order)
    (new_bot : option string -> result unit)
    (P T C : option string) (bot : delivery) (now : Z) (ws : list cycle_env) :
  iterates order ->
  (P = None \/ T = None \/ C = None ->
   exists e, main_with_tokens py order new_bot P T C bot now ws = Raise e
             /\ cls e = TokenNotFound)
  /\ (P <> None /\ T <> None /\ C <> None ->
      forall e, new_bot T = Raise e ->
      main_with_tokens py order new_bot P T C bot now ws = Raise e)
  /\ (P <> None /\ T <> None /\ C <> None ->
      new_bot T = Ok tt ->
      exists s evs,
        main_with_tokens py order new_bot P T C bot now ws
        = Ok (Normal tt, s, Sent "---Bot engaged" bot :: evs)
        /\ naps evs = List.length ws).
Proof.
  intros H. unfold main_with_tokens. split; [| split].
  - intros Hnone.
    destruct (check_tokens order P T C) as [[] | e] eqn:E.
    + apply (check_tokens_ok_iff order P T C H) in E.
      destruct E as (HP & HT & HC). destruct Hnone as [-> | [-> | ->]]; congruence.
    + exists e. split; [reflexivity |].
      now destruct (check_tokens_names_missing order P T C e H E).
  - intros Hall e He. apply (check_tokens_ok_iff order P T C H) in Hall.
    now rewrite Hall, He.
  - intros Hall Hbot. apply (check_tokens_ok_iff order P T C H) in Hall.
    rewrite Hall, Hbot. unfold main, bind, send_message, emit.
    destruct (main_loop_goes_on py ws (initial_state now)) as [Hf Hn].
    destruct (main_loop py ws (initial_state now)) as [[r s] evs].
    unfold flow_of, events_of in Hf, Hn. simpl in Hf, Hn. subst r.
    exists s, evs. split; [reflexivity | exact Hn].
Qed.

Lemma main_with_tokens_start_run :
  exists s evs,
    main_with_tokens silent (@rev (string * option string))
      (fun _ => Ok tt)
      (Some "p") (Some "t") (Some "c") Delivered 1000
      [cycle_with answer_hw1; cycle_offline]
    = Ok (Normal tt, s, Sent "---Bot engaged" Delivered :: evs)
    /\ naps evs = 2%nat.
Proof.
  apply (proj2 (proj2 (main_with_tokens_start silent (@rev (string * option string))
                         (fun _ => Ok tt)
                         (Some "p") (Some "t") (Some "c") Delivered 1000
                         [cycle_with answer_hw1; cycle_offline]
                         (fun l => Permutation_sym (Permutation_rev l))))).
  - repeat split; discriminate.
  - reflexivity.
Defined.

(** ** More on one turn *)

(** What a body of [try] that ran to its end went through. *)
Lemma main_try_normal_inv (py : interpreter) (w : cycle_env)
    (s s1 : loop_state) (r : unit) (ev1 : list event) :
  main_try py w s = (Normal r, s1, ev1) ->
  exists response homework rest name message current_date,
    get_api_answer py (http w) (timestamp s) = Ok response
    /\ check_response response = Ok tt
    /\ subscript py response "homeworks" = Ok (JList (homework :: rest))
    /\ subscript py homework "homework_name" = Ok name
    /\ parse_status py homework = Ok message
    /\ subscript py response "current_date" = Ok current_date
    /\ current_date <> JNull.
Proof.
  intros H.
  destruct (get_api_answer py (http w) (timestamp s)) as [response | e] eqn:H1.
  2: { rewrite (main_try_fetch_raises py w s e H1) in H. discriminate. }
  destruct (check_response response) as [[] | e] eqn:H2.
  2: { rewrite (main_try_validation_raises py w s response e H1 H2) in H.
       discriminate. }
  destruct (subscript_accepted py response H2)
    as (homeworks & current_date & H3 & H6 & Hcd).
  destruct homeworks as [| homework rest].
  { rewrite (main_try_no_homeworks py w s response H1 H2 H3) in H. discriminate. }
  destruct (subscript py homework "homework_name") as [name | e] eqn:H4.
  2: { rewrite (main_try_extraction_raises py w s response homework rest e
                  H1 H2 H3 H4) in H. discriminate. }
  destruct (parse_status py homework) as [message | e] eqn:H5.
  2: { rewrite (main_try_parsing_raises py w s response homework name rest e
                  H1 H2 H3 H4 H5) in H. discriminate. }
  exists response, homework, rest, name, message, current_date.
  repeat split; assumption.
Qed.

Lemma main_try_continue_inv (py : interpreter) (w : cycle_env)
    (s s1 : loop_state) (ev1 : list event) :
  main_try py w s = (Continue, s1, ev1) -> s1 = s /\ ev1 = [].
Proof.
  intros H.
  destruct (main_try_cases py w s)
    as [(e' & [H' | (name & H')]) | [H' | (name & message & current_date & H')]];
    rewrite H' in H; try discriminate.
  - injection H as <- <-. split; reflexivity.
  - destruct (report_eq _ _); discriminate.
Qed.

Lemma pyval_eq_refl (v : pyval) : pyval_eq v v = true.
Proof.
  destruct v as [j | i e]; simpl; [apply py_eq_refl | apply Nat.eqb_refl].
Qed.

(** X4.  On every path a turn sends at most one message and then sleeps
    RETRY_PERIOD seconds once, as the last thing it does. *)
Theorem turn_sends_at_most_one_then_sleeps (py : interpreter) (w : cycle_env)
    (s : loop_state) :
  exists msgs,
    events_of (iteration py w s) = (msgs ++ [Slept RETRY_PERIOD])%list
    /\ (msgs = [] \/ exists m, msgs = [Sent m (telegram w)]).
Proof.
  destruct (iteration_cases py w s)
    as [(e & h & _ & H) | [H | (name & message & current_date & H)]];
    rewrite H; clear H.
  - destruct (report_eq _ _).
    + exists []. split; [reflexivity | now left].
    + eexists [_]. split; [reflexivity | right; eexists; reflexivity].
  - exists []. split; [reflexivity | now left].
  - destruct (report_eq _ _).
    + exists []. split; [reflexivity | now left].
    + eexists [_]. split; [reflexivity | right; eexists; reflexivity].
Qed.

(** A turn leaves the timestamp alone or sets it to a value that is not
    None. *)
Lemma iteration_timestamp (py : interpreter) (w : cycle_env) (s : loop_state) :
  timestamp (state_after (iteration py w s)) = timestamp s
  \/ timestamp (state_after (iteration py w s)) <> JNull.
Proof.
  destruct (main_try py w s) as [[[[] | | e] s1] ev1] eqn:H.
  - destruct (main_try_normal_inv py w s s1 tt ev1 H)
      as (response & homework & rest & name & message & current_date
          & H1 & H2 & H3 & H4 & H5 & H6 & Hcd).
    right.
    rewrite (iteration_success_path py w s response homework name current_date
               rest message H1 H2 H3 H4 H5 H6).
    now destruct (report_eq _ _).
  - left. rewrite (iteration_after_continue py w s s1 ev1 H).
    now destruct (main_try_continue_inv py w s s1 ev1 H) as [-> _].
  - left. rewrite (iteration_error_path py w s s1 e ev1 H).
    now destruct (report_eq _ _).
Qed.

(** X5.  The timestamp the loop fetches with is never None: it is the
    start time until a turn succeeds, and afterwards a 'current_date'
    that passed validation. *)
Theorem timestamp_never_none (py : interpreter) (s : loop_state) :
  reachable py s -> timestamp s <> JNull.
Proof.
  induction 1 as [now | s w r s' ev _ IH H].
  - discriminate.
  - destruct (iteration_timestamp py w s) as [E | E];
      rewrite H in E; unfold state_after in E; simpl in E; congruence.
Qed.

Lemma timestamp_never_none_run : timestamp state_after_hw1 <> JNull.
Proof.
  apply (timestamp_never_none silent state_after_hw1).
  exact (reach_step silent (initial_state 1000) (cycle_with answer_hw1)
           _ _ _ (reach_init silent 1000) eq_refl).
Defined.

(** X6.  Between turns the two reports are equal: whenever a turn
    starts, current_report == prev_report holds. *)
Theorem reports_equal_between_turns (py : interpreter) (s : loop_state) :
  reachable py s -> report_eq (current_report s) (prev_report s) = true.
Proof.
  induction 1 as [now | s w r s' ev _ IH H]; [reflexivity |].
  assert (Hrefl : forall a, report_eq a a = true).
  { intros a. unfold report_eq. now rewrite !pyval_eq_refl. }
  destruct (iteration_cases py w s)
    as [(e & h & _ & E) | [E | (name & message & current_date & E)]];
    rewrite E in H; clear E.
  - destruct (report_eq (mkReport h (PExc (next_obj s) e)) (prev_report s)) eqn:Q;
      injection H as _ <- _; simpl; [exact Q | apply Hrefl].
  - now injection H as _ <- _.
  - destruct (report_eq (mkReport (PJson name) (PJson (JStr message)))
                        (prev_report s)) eqn:Q;
      injection H as _ <- _; simpl; [exact Q | apply Hrefl].
Qed.

Lemma reports_equal_between_turns_run :
  report_eq (current_report state_after_hw1) (prev_report state_after_hw1) = true.
Proof.
  apply (reports_equal_between_turns silent state_after_hw1).
  exact (reach_step silent (initial_state 1000) (cycle_with answer_hw1)
           _ _ _ (reach_init silent 1000) eq_refl).
Defined.

(** ** parse_status and check_response, in full *)

Lemma parse_status_ok_inv (py : interpreter) (homework : json) (message : string) :
  parse_status py homework = Ok message ->
  exists fields status verdict,
    homework = JObj fields
    /\ is_none (dict_get fields "homework_name") = false
    /\ dict_get fields "status" = JStr status
    /\ lookup status HOMEWORK_VERDICTS = Some verdict
    /\ message = "Изменился статус проверки работы " ++ dquote
                 ++ py_str py (dict_get fields "homework_name") ++ dquote
                 ++ ". " ++ verdict.
Proof.
  destruct homework as [| ? | ? | ? | ? | fields]; try discriminate.
  unfold parse_status.
  destruct (is_none (dict_get fields "homework_name")) eqn:Hn; [discriminate |].
  destruct (dict_get fields "status") as [| b | n | status | l | f] eqn:Hs;
    unfold verdict_of; try discriminate.
  destruct (lookup status HOMEWORK_VERDICTS) as [verdict |] eqn:Hv;
    [| discriminate].
  intros H. injection H as <-.
  exists fields, status, verdict. repeat split; assumption.
Qed.

(** X7.  parse_status returns a message exactly for a record whose
    homework_name is not None and whose status is a string of the verdict
    table, and the message is the name in double quotes followed by that
    status's verdict. *)
Theorem parse_status_ok_iff (py : interpreter) (fields : list (string * json))
    (message : string) :
  parse_status py (JObj fields) = Ok message
  <-> is_none (dict_get fields "homework_name") = false
      /\ exists status verdict,
           dict_get fields "status" = JStr status
           /\ lookup status HOMEWORK_VERDICTS = Some verdict
           /\ message = "Изменился статус проверки работы " ++ dquote
                        ++ py_str py (dict_get fields "homework_name") ++ dquote
                        ++ ". " ++ verdict.
Proof.
  split.
  - intros H.
    destruct (parse_status_ok_inv py (JObj fields) message H)
      as (fields' & status & verdict & E & Hn & Hs & Hv & Hm).
    injection E as <-. split; [exact Hn |]. now exists status, verdict.
  - intros (Hn & status & verdict & Hs & Hv & ->).
    unfold parse_status. rewrite Hn, Hs. unfold verdict_of. now rewrite Hv.
Qed.

(** X8.  check_response accepts exactly the dicts that bind 'homeworks'
    to a list and 'current_date' to a value that is not None. *)
Theorem check_response_ok_iff (response : json) :
  check_response response = Ok tt
  <-> exists fields homeworks current_date,
        response = JObj fields
        /\ lookup "homeworks" fields = Some (JList homeworks)
        /\ lookup "current_date" fields = Some current_date
        /\ current_date <> JNull.
Proof.
  split; [apply check_response_accepts |].
  intros (fields & homeworks & current_date & -> & H1 & H2 & H3).
  rewrite check_response_keys_present; unfold dict_get; rewrite ?H1, ?H2;
    try reflexivity.
  now destruct current_date.
Qed.

(** X9.  The checks of check_response come in a fixed order: a missing
    or null 'homeworks' is reported whatever 'current_date' is, and a
    missing or null 'current_date' is reported before the type of
    'homeworks' is looked at. *)
Theorem check_response_precedence (fields : list (string * json)) :
  (absent_or_null fields "homeworks" ->
   check_response (JObj fields)
   = Raise (mkExc APIKeyError "API response doesn't contain key 'homeworks'"))
  /\ (~ absent_or_null fields "homeworks" ->
      absent_or_null fields "current_date" ->
      check_response (JObj fields)
      = Raise (mkExc APIKeyError "API response doesn't contain key 'current_date'")).
Proof.
  split.
  - intros H. apply check_response_first_key. now apply absent_or_null_get.
  - intros H1 H2. apply check_response_second_key.
    + now apply present_get.
    + now apply absent_or_null_get.
Qed.

Lemma check_response_precedence_run :
  check_response (JObj [("current_date", JInt 1)])
  = Raise (mkExc APIKeyError "API response doesn't contain key 'homeworks'")
  /\ check_response (JObj [("homeworks", JStr "none")])
     = Raise (mkExc APIKeyError "API response doesn't contain key 'current_date'").
Proof.
  split.
  - apply (proj1 (check_response_precedence [("current_date", JInt 1)])).
    left. reflexivity.
  - apply (proj2 (check_response_precedence [("homeworks", JStr "none")])).
    + intros [H | H]; discriminate H.
    + left. reflexivity.
Defined.

(** ** What the loop notifies *)

Lemma pyval_eq_message (message : string) (v : pyval) :
  pyval_eq (PJson (JStr message)) v = true -> v = PJson (JStr message).
Proof.
  destruct v as [[| | | m | |] | i e]; simpl; try discriminate.
  intros H. apply String.eqb_eq in H. now subst.
Qed.

(** A success turn sends its message when the previous output is not
    that message. *)
Lemma success_turn_sends (py : interpreter) (w : cycle_env) (s : loop_state)
    (response homework : json) (rest : list json) (message : string) :
  get_api_answer py (http w) (timestamp s) = Ok response ->
  check_response response = Ok tt ->
  subscript py response "homeworks" = Ok (JList (homework :: rest)) ->
  parse_status py homework = Ok message ->
  output (prev_report s) <> PJson (JStr message) ->
  sent_messages (events_of (iteration py w s)) = [message].
Proof.
  intros H1 H2 H3 H5 Hout.
  destruct (parse_status_ok_name py homework message H5) as (name & H4 & _).
  destruct (subscript_accepted py response H2)
    as (homeworks & current_date & _ & H6 & _).
  rewrite (iteration_success_path py w s response homework name current_date
             rest message H1 H2 H3 H4 H5 H6).
  destruct (report_eq _ _) eqn:Q; [| reflexivity].
  unfold report_eq in Q. simpl in Q. apply andb_prop in Q. destruct Q as [_ Q].
  apply pyval_eq_message in Q. congruence.
Qed.

(** After a success turn the previous report's output is the turn's
    message, sent now or equal to what was there. *)
Lemma success_turn_prev_output (py : interpreter) (w : cycle_env) (s : loop_state)
    (response homework : json) (rest : list json) (message : string) :
  get_api_answer py (http w) (timestamp s) = Ok response ->
  check_response response = Ok tt ->
  subscript py response "homeworks" = Ok (JList (homework :: rest)) ->
  parse_status py homework = Ok message ->
  output (prev_report (state_after (iteration py w s))) = PJson (JStr message).
Proof.
  intros H1 H2 H3 H5.
  destruct (parse_status_ok_name py homework message H5) as (name & H4 & _).
  destruct (subscript_accepted py response H2)
    as (homeworks & current_date & _ & H6 & _).
  rewrite (iteration_success_path py w s response homework name current_date
             rest message H1 H2 H3 H4 H5 H6).
  destruct (report_eq _ _) eqn:Q; [| reflexivity].
  unfold report_eq in Q. simpl in Q. apply andb_prop in Q. destruct Q as [_ Q].
  now apply pyval_eq_message in Q.
Qed.

Lemma append_cancel_l (a b c : string) : a ++ b = a ++ c -> b = c.
Proof.
  induction a as [| ch a IH]; simpl; [trivial |].
  intros H. injection H as H. now apply IH.
Qed.

(** Two statuses with the same verdict are the same status. *)
Lemma verdict_injective (status status' verdict : string) :
  lookup status HOMEWORK_VERDICTS = Some verdict ->
  lookup status' HOMEWORK_VERDICTS = Some verdict ->
  status = status'.
Proof.
  simpl.
  destruct (String.eqb_spec status "approved") as [-> |];
    [| destruct (String.eqb_spec status "reviewing") as [-> |];
       [| destruct (String.eqb_spec status "rejected") as [-> |];
          [| discriminate]]];
    intros H; injection H as <-;
    (destruct (String.eqb_spec status' "approved") as [-> |];
     [| destruct (String.eqb_spec status' "reviewing") as [-> |];
        [| destruct (String.eqb_spec status' "rejected") as [-> |];
           [| discriminate]]]);
    intros H; try reflexivity; discriminate H.
Qed.

Lemma parse_status_ok_iff_run :
  parse_status silent (JObj [("homework_name", JStr "hw1"); ("status", JStr "rejected")])
  = Ok ("Изменился статус проверки работы " ++ dquote ++ "hw1" ++ dquote
        ++ ". Работа проверена: у ревьюера есть замечания.").
Proof.
  apply (proj2 (parse_status_ok_iff silent
                  [("homework_name", JStr "hw1"); ("status", JStr "rejected")]
                  _)).
  split; [reflexivity |].
  exists "rejected", "Работа проверена: у ревьюера есть замечания.".
  repeat split.
Defined.

Lemma check_response_ok_iff_run : check_response answer_hw1 = Ok tt.
Proof.
  apply (proj2 (check_response_ok_iff answer_hw1)).
  eexists _, _, _. repeat split. discriminate.
Defined.

(** X10.  A change of status is always notified: when two turns in a
    row succeed on a first homework with the same name and two different
    statuses, the second turn sends its message. *)
Theorem status_change_is_notified (py : interpreter) (w w' : cycle_env)
    (s : loop_state) (response response' : json)
    (fields fields' : list (string * json)) (rest rest' : list json)
    (message message' : string) :
  get_api_answer py (http w) (timestamp s) = Ok response ->
  check_response response = Ok tt ->
  subscript py response "homeworks" = Ok (JList (JObj fields :: rest)) ->
  parse_status py (JObj fields) = Ok message ->
  get_api_answer py (http w') (timestamp (state_after (iteration py w s)))
  = Ok response' ->
  check_response response' = Ok tt ->
  subscript py response' "homeworks" = Ok (JList (JObj fields' :: rest')) ->
  parse_status py (JObj fields') = Ok message' ->
  dict_get fields' "homework_name" = dict_get fields "homework_name" ->
  dict_get fields' "status" <> dict_get fields "status" ->
  sent_messages (events_of (iteration py w' (state_after (iteration py w s))))
  = [message'].
Proof.
  intros H1 H2 H3 H5 H1' H2' H3' H5' Hname Hstatus.
  apply success_turn_sends with response' (JObj fields') rest'; auto.
  rewrite (success_turn_prev_output py w s response (JObj fields) rest message
             H1 H2 H3 H5).
  intros E. injection E as E.
  destruct (parse_status_ok_inv py _ _ H5)
    as (f & status & verdict & Ef & _ & Hs & Hv & Hm).
  destruct (parse_status_ok_inv py _ _ H5')
    as (f' & status' & verdict' & Ef' & _ & Hs' & Hv' & Hm').
  injection Ef as <-. injection Ef' as <-.
  rewrite Hm, Hm', Hname in E.
  do 5 apply append_cancel_l in E. subst verdict'.
  apply Hstatus. rewrite Hs, Hs'. f_equal.
  now apply verdict_injective with verdict.
Qed.

Lemma status_change_is_notified_run :
  sent_messages
    (events_of (iteration silent (cycle_with answer_hw1_approved) state_after_hw1))
  = ["Изменился статус проверки работы " ++ dquote ++ "hw1" ++ dquote
     ++ ". Работа проверена: ревьюеру всё понравилось. Ура!"].
Proof.
  apply (status_change_is_notified silent
           (cycle_with answer_hw1) (cycle_with answer_hw1_approved)
           (initial_state 1000) answer_hw1 answer_hw1_approved
           [("homework_name", JStr "hw1"); ("status", JStr "reviewing")]
           [("homework_name", JStr "hw1"); ("status", JStr "approved")]
           [] []
           ("Изменился статус проверки работы " ++ dquote ++ "hw1" ++ dquote
            ++ ". Работа взята на проверку ревьюером."));
    try reflexivity.
  discriminate.
Defined.

(** X11.  After a turn that raised, the next turn that succeeds sends
    its message even when the status is the one notified before the
    error: the previous report then holds the exception, which no message
    equals. *)
Theorem status_resent_after_error (py : interpreter) (w w' : cycle_env)
    (s s1 : loop_state) (e : exc) (ev1 : list event)
    (response first : json) (rest : list json) (message : string) :
  main_try py w s = (Raised e, s1, ev1) ->
  get_api_answer py (http w') (timestamp (state_after (iteration py w s)))
  = Ok response ->
  check_response response = Ok tt ->
  subscript py response "homeworks" = Ok (JList (first :: rest)) ->
  parse_status py first = Ok message ->
  sent_messages (events_of (iteration py w' (state_after (iteration py w s))))
  = [message].
Proof.
  intros H H1 H2 H3 H5.
  apply success_turn_sends with response first rest; auto.
  rewrite (iteration_error_path py w s s1 e ev1 H).
  destruct (report_eq (mkReport (homework (current_report s1))
                                (PExc (next_obj s) e)) (prev_report s)) eqn:Q;
    unfold state_after; simpl.
  - unfold report_eq in Q. simpl in Q. apply andb_prop in Q. destruct Q as [_ Q].
    destruct (output (prev_report s)); [discriminate Q | discriminate].
  - discriminate.
Qed.

Lemma status_resent_after_error_run :
  sent_messages
    (events_of (iteration silent (cycle_with answer_hw1)
       (state_after (iteration silent cycle_offline state_after_hw1))))
  = ["Изменился статус проверки работы " ++ dquote ++ "hw1" ++ dquote
     ++ ". Работа взята на проверку ревьюером."].
Proof.
  apply (status_resent_after_error silent cycle_offline (cycle_with answer_hw1)
           state_after_hw1 state_after_hw1
           (mkExc APIError
              "API didn't return correct answer. Error connection refused. From date: 2000")
           [] answer_hw1
           (JObj [("homework_name", JStr "hw1"); ("status", JStr "reviewing")])
           []);
    reflexivity.
Defined.

(** While no turn has succeeded, the previous report's output is None or
    an exception object, never a message. *)
Lemma no_success_yet_output (py : interpreter) (s : loop_state) :
  no_success_yet py s ->
  forall message, output (prev_report s) <> PJson (JStr message).
Proof.
  induction 1 as [now | s w _ IH Hflow]; intros message; [discriminate |].
  destruct (main_try py w s) as [[[[] | | e] s1] ev1] eqn:H.
  - now destruct Hflow.
  - rewrite (iteration_after_continue py w s s1 ev1 H).
    destruct (main_try_continue_inv py w s s1 ev1 H) as [-> _]. apply IH.
  - rewrite (iteration_error_path py w s s1 e ev1 H).
    destruct (report_eq _ _); unfold state_after; simpl; [apply IH | discriminate].
Qed.

(** X12.  The first turn after the start that succeeds on a list that
    is not empty always sends its message, however many turns that raised
    or met an empty list came before it: until then the previous report
    holds None or an exception, never a message. *)
Theorem first_status_is_sent (py : interpreter) (w : cycle_env) (s : loop_state)
    (response first : json) (rest : list json) (message : string) :
  no_success_yet py s ->
  get_api_answer py (http w) (timestamp s) = Ok response ->
  check_response response = Ok tt ->
  subscript py response "homeworks" = Ok (JList (first :: rest)) ->
  parse_status py first = Ok message ->
  sent_messages (events_of (iteration py w s)) = [message].
Proof.
  intros Hs H1 H2 H3 H5.
  apply success_turn_sends with response first rest; auto.
  apply (no_success_yet_output py s Hs).
Qed.

Lemma first_status_is_sent_run :
  sent_messages
    (events_of (iteration silent (cycle_with answer_hw1)
       (state_after (iteration silent (cycle_with answer_no_homeworks)
          (state_after (iteration silent cycle_offline (initial_state 1000)))))))
  = ["Изменился статус проверки работы " ++ dquote ++ "hw1" ++ dquote
     ++ ". Работа взята на проверку ревьюером."].
Proof.
  apply (first_status_is_sent silent (cycle_with answer_hw1) _ answer_hw1
           (JObj [("homework_name", JStr "hw1"); ("status", JStr "reviewing")])
           []);
    try reflexivity.
  apply (none_after_turn silent).
  - apply (none_after_turn silent).
    + apply (none_at_start silent).
    + intros H. discriminate H.
  - intros H. discriminate H.
Defined.

(** X13.  Whether Telegram delivers or not changes nothing in a turn:
    the same message is handed to the bot, the loop's variables end up
    the same (a report whose delivery failed is adopted as previous all
    the same), and the loop goes on. *)
Theorem delivery_outcome_changes_nothing (py : interpreter) (w : cycle_env)
    (s : loop_state) (d : delivery) :
  flow_of (iteration py (mkEnv (http w) d) s) = flow_of (iteration py w s)
  /\ state_after (iteration py (mkEnv (http w) d) s) = state_after (iteration py w s)
  /\ sent_messages (events_of (iteration py (mkEnv (http w) d) s))
     = sent_messages (events_of (iteration py w s)).
Proof.
  set (w' := mkEnv (http w) d).
  assert (Hw : http w' = http w) by reflexivity.
  destruct (get_api_answer py (http w) (timestamp s)) as [response | e] eqn:H1.
  2: { rewrite (iteration_error_path py w s s e []
                  (main_try_fetch_raises py w s e H1)).
       rewrite (iteration_error_path py w' s s e []
                  (main_try_fetch_raises py w' s e H1)).
       destruct (report_eq _ _); repeat split. }
  destruct (check_response response) as [[] | e] eqn:H2.
  2: { rewrite (iteration_error_path py w s s e []
                  (main_try_validation_raises py w s response e H1 H2)).
       rewrite (iteration_error_path py w' s s e []
                  (main_try_validation_raises py w' s response e H1 H2)).
       destruct (report_eq _ _); repeat split. }
  destruct (subscript_accepted py response H2)
    as (homeworks & current_date & H3 & H6 & _).
  destruct homeworks as [| first rest].
  { rewrite (iteration_after_continue py w s s []
               (main_try_no_homeworks py w s response H1 H2 H3)).
    rewrite (iteration_after_continue py w' s s []
               (main_try_no_homeworks py w' s response H1 H2 H3)).
    repeat split. }
  destruct (subscript py first "homework_name") as [name | e] eqn:H4.
  2: { rewrite (iteration_error_path py w s s e []
                  (main_try_extraction_raises py w s response first rest e
                     H1 H2 H3 H4)).
       rewrite (iteration_error_path py w' s s e []
                  (main_try_extraction_raises py w' s response first rest e
                     H1 H2 H3 H4)).
       destruct (report_eq _ _); repeat split. }
  destruct (parse_status py first) as [message | e] eqn:H5.
  2: { rewrite (iteration_error_path py w s _ e []
                  (main_try_parsing_raises py w s response first name rest e
                     H1 H2 H3 H4 H5)).
       rewrite (iteration_error_path py w' s _ e []
                  (main_try_parsing_raises py w' s response first name rest e
                     H1 H2 H3 H4 H5)).
       destruct (report_eq _ _); repeat split. }
  rewrite (iteration_success_path py w s response first name current_date rest
             message H1 H2 H3 H4 H5 H6).
  rewrite (iteration_success_path py w' s response first name current_date rest
             message H1 H2 H3 H4 H5 H6).
  destruct (report_eq _ _); repeat split.
Qed.

(** X14.  An answer with a status other than 200 is reported as "ERROR –
    API returned status <code>" from every state the loop can be in; its
    body is not decoded, and the timestamp stays. *)
Theorem bad_status_is_reported (py : interpreter) (w : cycle_env)
    (s : loop_state) (status_code : Z) (body : result json) :
  reachable py s ->
  http w = Responded status_code body ->
  status_code <> 200 ->
  sent_messages (events_of (iteration py w s))
  = ["ERROR – API returned status " ++ str_int status_code]
  /\ timestamp (state_after (iteration py w s)) = timestamp s.
Proof.
  intros Hs Hw Hcode.
  assert (H1 : get_api_answer py (http w) (timestamp s)
               = Raise (mkExc APIError ("API returned status " ++ str_int status_code))).
  { rewrite Hw. unfold get_api_answer.
    destruct (Z.eqb_spec status_code HTTP_OK) as [E | E]; [now destruct Hcode |].
    reflexivity. }
  pose proof (main_try_fetch_raises py w s _ H1) as H.
  destruct (error_turn_notifies py w s s _ [] (reachable_objects_allocated py s Hs) H)
    as (_ & _ & C & _).
  split; [exact C |].
  rewrite (iteration_error_path py w s s _ [] H). now destruct (report_eq _ _).
Qed.

Lemma bad_status_is_reported_run :
  sent_messages
    (events_of (iteration silent (mkEnv (Responded 503 (Ok answer_hw1)) Delivered)
                  state_after_hw1))
  = ["ERROR – API returned status 503"]
  /\ timestamp
       (state_after (iteration silent (mkEnv (Responded 503 (Ok answer_hw1)) Delivered)
                       state_after_hw1))
     = timestamp state_after_hw1.
Proof.
  apply (bad_status_is_reported silent
           (mkEnv (Responded 503 (Ok answer_hw1)) Delivered)
           state_after_hw1 503 (Ok answer_hw1)).
  - exact (reach_step silent (initial_state 1000) (cycle_with answer_hw1)
             _ _ _ (reach_init silent 1000) eq_refl).
  - reflexivity.
  - discriminate.
Defined.

(** X15.  When the first item of the list is not a record, indexing it
    raises TypeError; the turn leaves the report's 'homework' and the
    timestamp as they were and the loop reports that TypeError. *)
Theorem non_record_homework_is_reported (py : interpreter) (w : cycle_env)
    (s : loop_state) (response first : json) (rest : list json) :
  reachable py s ->
  get_api_answer py (http w) (timestamp s) = Ok response ->
  check_response response = Ok tt ->
  subscript py response "homeworks" = Ok (JList (first :: rest)) ->
  (forall fields, first <> JObj fields) ->
  main_try py w s
  = (Raised (mkExc TypeError (fault_text py (NotSubscriptable first))), s, [])
  /\ homework (current_report (state_after (iteration py w s)))
     = homework (current_report s)
  /\ timestamp (state_after (iteration py w s)) = timestamp s
  /\ sent_messages (events_of (iteration py w s))
     = ["ERROR – " ++ fault_text py (NotSubscriptable first)].
Proof.
  intros Hs H1 H2 H3 Hfirst.
  assert (H4 : subscript py first "homework_name"
               = Raise (mkExc TypeError (fault_text py (NotSubscriptable first)))).
  { destruct first; try reflexivity. now destruct (Hfirst fields). }
  pose proof (main_try_extraction_raises py w s response first rest _ H1 H2 H3 H4)
    as H.
  destruct (error_turn_notifies py w s s _ [] (reachable_objects_allocated py s Hs) H)
    as (_ & _ & C & _).
  split; [exact H |].
  rewrite (iteration_error_path py w s s _ [] H) in *.
  destruct (report_eq _ _); repeat split; exact C.
Qed.

Lemma non_record_homework_is_reported_run :
  main_try silent (cycle_with answer_string_homework) state_after_hw1
  = (Raised (mkExc TypeError (fault_text silent (NotSubscriptable (JStr "hw1")))),
     state_after_hw1, [])
  /\ homework (current_report
                 (state_after (iteration silent (cycle_with answer_string_homework)
                                 state_after_hw1)))
     = homework (current_report state_after_hw1)
  /\ timestamp (state_after (iteration silent (cycle_with answer_string_homework)
                               state_after_hw1))
     = timestamp state_after_hw1
  /\ sent_messages (events_of (iteration silent (cycle_with answer_string_homework)
                                 state_after_hw1))
     = ["ERROR – " ++ fault_text silent (NotSubscriptable (JStr "hw1"))].
Proof.
  apply (non_record_homework_is_reported silent
           (cycle_with answer_string_homework) state_after_hw1
           answer_string_homework (JStr "hw1") []).
  - exact (reach_step silent (initial_state 1000) (cycle_with answer_hw1)
             _ _ _ (reach_init silent 1000) eq_refl).
  - reflexivity.
  - reflexivity.
  - reflexivity.
  - intros fields H. discriminate H.
Defined.
